(** * tesp: level-1 scene filter (bin/filter.py)

    A shallow embedding of [get_archive_metadata], [filter_granule] and
    [filter_granules], with the Python library calls they make modelled at the
    level the code observes them: [str] methods, [pathlib] paths,
    [zipfile] member lists, [ElementTree] trees and ElementPath searches,
    insertion-ordered dictionaries, exceptions and the effects on the output
    stream, the log and the package store. *)

From Stdlib Require Import String Ascii List Bool Arith ZArith Lia SpecFloat.
Import ListNotations.
Open Scope string_scope.
Open Scope list_scope.

Set Implicit Arguments.
Set Warnings "-register-all".

(** ** Python strings *)

Module Str.

(** [pat in s] *)
Fixpoint contains (pat s : string) : bool :=
  if String.prefix pat s then true
  else match s with
       | EmptyString => false
       | String _ s' => contains pat s'
       end.

(** [s.replace(old, new)] scans left to right and replaces the occurrences
    of [old] that do not overlap; [skip] counts the characters of a matched
    occurrence still to be dropped. *)
Fixpoint replace_from (old new : string) (skip : nat) (s : string) : string :=
  match s with
  | EmptyString => EmptyString
  | String c s' =>
      match skip with
      | S k => replace_from old new k s'
      | O => if String.prefix old s
             then new ++ replace_from old new (String.length old - 1) s'
             else String c (replace_from old new 0 s')
      end
  end.

(** With an empty [old] Python puts [new] around every character. *)
Fixpoint intersperse (new s : string) : string :=
  match s with
  | EmptyString => new
  | String c s' => new ++ String c (intersperse new s')
  end.

Definition replace (old new s : string) : string :=
  match old with
  | EmptyString => intersperse new s
  | _ => replace_from old new 0 s
  end.

(** [s.split(sep)] for a one-character separator: never empty. *)
Fixpoint split (sep : ascii) (s : string) : list string :=
  match s with
  | EmptyString => [EmptyString]
  | String c s' =>
      if Ascii.eqb c sep then EmptyString :: split sep s'
      else match split sep s' with
           | [] => [String c EmptyString]
           | w :: ws => String c w :: ws
           end
  end.

(** [s[:-n]] *)
Definition drop_last (n : nat) (s : string) : string :=
  String.substring 0 (String.length s - n) s.

(** [s.endswith(suf)] *)
Definition endswith (suf s : string) : bool :=
  String.eqb (String.substring (String.length s - String.length suf)
                               (String.length suf) s) suf
  && Nat.leb (String.length suf) (String.length s).

End Str.

(** [os.path.basename] on POSIX: what follows the last slash. *)
Definition basename (s : string) : string :=
  last (Str.split "/" s) EmptyString.

(** [os.path.join(a, b)] on POSIX. *)
Definition os_path_join (a b : string) : string :=
  if String.prefix "/" b then b
  else if String.eqb a EmptyString || Str.endswith "/" a then a ++ b
  else a ++ "/" ++ b.

(** ** Exceptions and results *)

Inductive exn : Type :=
| IndexError
| TypeError
| AttributeError
| KeyError
| FileNotFoundError
| IsADirectoryError
| BadZipFile
| ParseError
| OtherError (msg : string).

Inductive result (A : Type) : Type :=
| Ok (a : A)
| Raise (e : exn).
Arguments Ok {A} a.
Arguments Raise {A} e.

Definition rbind {A B} (r : result A) (k : A -> result B) : result B :=
  match r with
  | Ok a => k a
  | Raise e => Raise e
  end.

Definition result_map {A B} (f : A -> B) (r : result A) : result B :=
  match r with
  | Ok a => Ok (f a)
  | Raise e => Raise e
  end.

Declare Scope result_scope.
Delimit Scope result_scope with result.
Notation "x <- r ;; k" := (rbind r (fun x => k))
  (at level 61, r at next level, right associativity) : result_scope.

(** [l[0]] *)
Definition first_item {A} (l : list A) : result A :=
  match l with
  | [] => Raise IndexError
  | x :: _ => Ok x
  end.

(** [l[-2]] *)
Definition item_neg2 {A} (l : list A) : result A :=
  if Nat.leb 2 (length l)
  then match nth_error l (length l - 2) with
       | Some x => Ok x
       | None => Raise IndexError
       end
  else Raise IndexError.

(** ** pathlib: pure POSIX paths *)

Module Pathlib.

(** A parsed path: the root (empty, ["/"] or ["//"]) and the components
    after it, none of them empty or ["."]. *)
Record Path : Type := mkPath { root : string; parts : list string }.

Definition str (p : Path) : string :=
  match root p, parts p with
  | EmptyString, [] => "."
  | r, ps => r ++ String.concat "/" ps
  end.

Definition name (p : Path) : string := last (parts p) EmptyString.

(** [suffix]: from the last dot of the name, when that dot is neither the
    first nor the last character. *)
Definition suffix (p : Path) : string :=
  let pieces := Str.split "." (name p) in
  let ext := last pieces EmptyString in
  if Nat.leb 2 (length pieces)
     && negb (String.eqb ext EmptyString)
     && Nat.ltb (String.length ext + 1) (String.length (name p))
  then "." ++ ext
  else EmptyString.

Definition parent (p : Path) : Path :=
  match parts p with
  | [] => p
  | _ => mkPath (root p) (removelast (parts p))
  end.

Fixpoint leading_slashes (s : string) : nat :=
  match s with
  | String "/" s' => S (leading_slashes s')
  | _ => 0
  end.

(** [splitroot]: exactly two leading slashes are kept, any other number of
    them is one root. *)
Definition splitroot (s : string) : string :=
  match leading_slashes s with
  | 0 => EmptyString
  | 2 => "//"
  | _ => "/"
  end.

Definition components (s : string) : list string :=
  filter (fun c => negb (String.eqb c EmptyString || String.eqb c "."))
         (Str.split "/" s).

(** The arguments of [joinpath] are parsed in turn; a rooted argument
    discards what came before it. *)
Definition parse_args (args : list string) : string * list string :=
  fold_left (fun acc a =>
               match splitroot a with
               | EmptyString => (fst acc, snd acc ++ components a)
               | r => (r, components a)
               end) args (EmptyString, []).

Definition joinpath (p : Path) (args : list string) : Path :=
  match parse_args args with
  | (EmptyString, ps) => mkPath (root p) (parts p ++ ps)
  | (r, ps) => mkPath r ps
  end.

End Pathlib.
Import Pathlib.

(** ** ElementTree *)

Inductive Element : Type :=
| mkElement (tag : string) (attrib : list (string * string))
            (text : option string) (children : list Element).

Definition tag (e : Element) : string :=
  match e with mkElement t _ _ _ => t end.
Definition attrib (e : Element) : list (string * string) :=
  match e with mkElement _ a _ _ => a end.
Definition text (e : Element) : option string :=
  match e with mkElement _ _ x _ => x end.
Definition children (e : Element) : list Element :=
  match e with mkElement _ _ _ c => c end.

(** [e.get(key)]: [None] when the attribute is absent. *)
Fixpoint get (key : string) (attrs : list (string * string)) : option string :=
  match attrs with
  | [] => None
  | (k, v) :: rest => if String.eqb k key then Some v else get key rest
  end.

(** ElementPath, for the token forms the searched paths are made of:
    ["."], ["*"] and plain tags, separated by slashes. *)
Inductive step : Type :=
| Self
| Star
| Child (t : string).

Definition parse_step (tok : string) : step :=
  if String.eqb tok "." then Self
  else if String.eqb tok "*" then Star
  else Child tok.

Definition parse_path (path : string) : list step :=
  map parse_step (Str.split "/" path).

Definition select (st : step) (context : list Element) : list Element :=
  match st with
  | Self => context
  | Star => flat_map children context
  | Child t =>
      flat_map (fun e => filter (fun c => String.eqb (tag c) t) (children e))
               context
  end.

Definition find_steps (steps : list step) (context : list Element)
  : list Element :=
  fold_left (fun ctx st => select st ctx) steps context.

Definition findall (path : string) (e : Element) : list Element :=
  find_steps (parse_path path) [e].

(** [e.findtext(path)]: the text of the first match (empty when it has none),
    [None] without a match. *)
Definition findtext (path : string) (e : Element) : option string :=
  match findall path e with
  | [] => None
  | c :: _ => Some (match text c with Some s => s | None => EmptyString end)
  end.

(** Truth value of an optional string: [None] and the empty string are
    false. *)
Definition truthy (o : option string) : bool :=
  match o with
  | Some (String _ _) => true
  | _ => false
  end.

(** ** zipfile and the file system *)

(** The members of an archive in directory order, each with the tree its bytes
    parse to, [None] when they are not well-formed XML. *)
Definition archive : Type := list (string * option Element).

Definition namelist (a : archive) : list string := map fst a.

(** [archive.read(name)] looks the name up in [NameToInfo], where a later
    entry of the same name has replaced an earlier one. *)
Fixpoint read_member (a : archive) (n : string) : option (option Element) :=
  match a with
  | [] => None
  | (k, v) :: rest =>
      match read_member rest n with
      | Some later => Some later
      | None => if String.eqb k n then Some v else None
      end
  end.

(** [ElementTree.XML(archive.read(name))] *)
Definition XML_of_member (a : archive) (n : string) : result Element :=
  match read_member a n with
  | Some (Some e) => Ok e
  | Some None => Raise ParseError
  | None => Raise KeyError
  end.

Inductive fsnode : Type :=
| Missing
| Directory
| ZipArchive (a : archive)
| XmlFile (e : Element)
| OtherFile.

Definition filesystem : Type := string -> fsnode.

(** [zipfile.ZipFile(path)] *)
Definition ZipFile (fs : filesystem) (path : string) : result archive :=
  match fs path with
  | Missing => Raise FileNotFoundError
  | Directory => Raise IsADirectoryError
  | ZipArchive a => Ok a
  | XmlFile _ | OtherFile => Raise BadZipFile
  end.

(** [ElementTree.parse(path).getroot()] *)
Definition ElementTree_parse (fs : filesystem) (path : string) : result Element :=
  match fs path with
  | Missing => Raise FileNotFoundError
  | Directory => Raise IsADirectoryError
  | XmlFile e => Ok e
  | ZipArchive _ | OtherFile => Raise ParseError
  end.

(** ** Dictionaries

    A Python [dict] keeps its keys in insertion order; assigning to a key that
    is present replaces the value where the key stands.  A key is a string or
    [None] (what [Element.get] returns for an absent attribute). *)

Definition pykey : Type := option string.

Definition pykey_eqb (a b : pykey) : bool :=
  match a, b with
  | Some x, Some y => String.eqb x y
  | None, None => true
  | _, _ => false
  end.

Definition dict (V : Type) : Type := list (pykey * V).

Fixpoint dict_set {V} (k : pykey) (v : V) (d : dict V) : dict V :=
  match d with
  | [] => [(k, v)]
  | (k', v') :: rest =>
      if pykey_eqb k' k then (k', v) :: rest
      else (k', v') :: dict_set k v rest
  end.

(** ** get_archive_metadata *)

Section Extractor.

(** [dateutil.parser.parse] and the values it returns are the library's. *)
Variable datetime : Type.
Variable date_parser : option string -> result datetime.

Variable fs : filesystem.

Local Open Scope result_scope.

(** Lines 43-47: the members taken for the product metadata. *)
Definition product_xmlfiles (pathname : Path) (a : archive) : list string :=
  let xmlfiles := filter (Str.contains "MTD_MSIL1C.xml") (namelist a) in
  match xmlfiles with
  | [] =>
      let pattern :=
        basename (Str.replace "PRD_MSIL1C" "MTD_SAFL1C" (str pathname)) in
      let pattern := Str.replace ".zip" ".xml" pattern in
      filter (Str.contains pattern) (namelist a)
  | _ => xmlfiles
  end.

(** Lines 52-57: the granule elements, with the second search when the
    first finds nothing. *)
Definition granule_elements (xml_root : Element) : list Element :=
  let search_term :=
    "./*/Product_Info/Product_Organisation/Granule_List/Granules" in
  let grn_elements := findall search_term xml_root in
  match grn_elements with
  | [] => findall (Str.drop_last 1 search_term) xml_root
  | _ => grn_elements
  end.

(** Line 73: the path of a granule's document beside a reference that is
    not a [.zip]. *)
Definition gran_path (pathname : Path) (gran_id : pykey) : result string :=
  match gran_id with
  | None => Raise TypeError
  | Some g =>
      Ok (str (joinpath (parent pathname)
                 ["GRANULE"; g;
                  (Str.replace "MSI" "MTD" (Str.drop_last 7 g) ++ ".xml")%string]))
  end.

(** Lines 76-80: the members taken for a granule's metadata. *)
Definition granule_xmlzipfiles (a : archive) (processing_baseline : option string)
           (gran_id : pykey) : result (list string) :=
  let xmlzipfiles := filter (Str.contains "MTD_TL.xml") (namelist a) in
  match xmlzipfiles with
  | [] =>
      pattern <- match gran_id with
                 | Some g => Ok (Str.replace "MSI" "MTD" g)
                 | None => Raise AttributeError
                 end ;;
      pattern <- match processing_baseline with
                 | Some pb => Ok (Str.replace ("_N" ++ pb) ".xml" pattern)
                 | None => Raise TypeError
                 end ;;
      Ok (filter (Str.contains pattern) (namelist a))
  | _ => Ok xmlzipfiles
  end.

(** Lines 72-82: the root of the granule's metadata document. *)
Definition granule_root (pathname : Path) (a : archive)
           (processing_baseline : option string) (gran_id : pykey)
  : result Element :=
  if negb (String.eqb (suffix pathname) ".zip") then
    gran_path <- gran_path pathname gran_id ;;
    ElementTree_parse fs gran_path
  else
    xmlzipfiles <- granule_xmlzipfiles a processing_baseline gran_id ;;
    member <- first_item xmlzipfiles ;;
    XML_of_member a member.

(** Lines 69-84: the loop over the granule elements. *)
Fixpoint for_granules (pathname : Path) (a : archive)
         (processing_baseline : option string)
         (grn_elements : list Element) (results : dict datetime)
  : result (dict datetime) :=
  match grn_elements with
  | [] => Ok results
  | granule :: rest =>
      let gran_id := get "granuleIdentifier" (attrib granule) in
      root <- granule_root pathname a processing_baseline gran_id ;;
      sensing <- first_item (findall "./*/SENSING_TIME" root) ;;
      let sensing_time := text sensing in
      parsed <- date_parser sensing_time ;;
      for_granules pathname a processing_baseline rest
                   (dict_set gran_id parsed results)
  end.

(** Lines 50-86: from the product metadata to the result. *)
Definition metadata_of_root (pathname : Path) (a : archive)
           (xml_root : Element) : result (dict datetime) :=
  let grn_elements := granule_elements xml_root in
  first <- first_item grn_elements ;;
  let search_term :=
    if truthy (findtext "IMAGE_ID" first) then "IMAGE_ID" else "IMAGE_FILE" in
  baseline <-
    first_item (findall "./*/Product_Info/PROCESSING_BASELINE" xml_root) ;;
  let processing_baseline := text baseline in
  for_granules pathname a processing_baseline grn_elements [].

Definition get_archive_metadata (pathname : Path) : result (dict datetime) :=
  a <- ZipFile fs (str pathname) ;;
  let xmlfiles := product_xmlfiles pathname a in
  member <- first_item xmlfiles ;;
  xml_root <- XML_of_member a member ;;
  metadata_of_root pathname a xml_root.

End Extractor.

(** ** Effects of the filter

    The filter writes to the output stream it is handed, logs, and asks
    whether a package's output exists.  A run is the sequence of these events,
    in order, with the value returned or the exception raised; the events
    before an exception have happened. *)

Inductive level : Type := DEBUG | INFO | WARNING.

Inductive logarg : Type :=
| AStr (s : string)
| AExn (e : exn).

Inductive event : Type :=
| Log (lvl : level) (msg : string) (args : list logarg)
| LogException (e : exn)
| Print (line : string)
| PackageExists (level1 granule pkgdir : string).

Definition M (A : Type) : Type := (list event * result A)%type.

Definition ret {A} (a : A) : M A := ([], Ok a).

Definition bind {A B} (m : M A) (k : A -> M B) : M B :=
  match m with
  | (t, Ok a) => let (t', r) := k a in (t ++ t', r)
  | (t, Raise e) => (t, Raise e)
  end.

Definition emit (ev : event) : M unit := ([ev], Ok tt).

Definition lift {A} (r : result A) : M A := ([], r).

Declare Scope filter_scope.
Delimit Scope filter_scope with filter.
Notation "x <- m ;; k" := (bind m (fun x => k))
  (at level 61, m at next level, right associativity) : filter_scope.
Notation "m ;; k" := (bind m (fun _ => k))
  (at level 61, right associativity) : filter_scope.

(** How an iteration of a [for] body ends. *)
Inductive flow (A : Type) : Type :=
| Next (a : A)
| Break (a : A)
| Return (a : A).
Arguments Next {A} a.
Arguments Break {A} a.
Arguments Return {A} a.

(** The lines written to the output stream. *)
Definition printed (t : list event) : list string :=
  flat_map (fun ev => match ev with Print l => [l] | _ => [] end) t.

(** The existence checks made, with their arguments. *)
Definition exists_calls (t : list event) : list (string * string * string) :=
  flat_map (fun ev => match ev with
                      | PackageExists l g d => [(l, g, d)]
                      | _ => []
                      end) t.

(** The warnings logged. *)
Definition warnings (t : list event) : list event :=
  filter (fun ev => match ev with Log WARNING _ _ => true | _ => false end) t.

(** ** filter_granule and filter_granules *)

Section Filter.

Variable datetime : Type.
Variable date_parser : option string -> result datetime.
(** [sensing_date.strftime(fmt)] *)
Variable strftime : datetime -> string -> string.

Variable fs : filesystem.

(** [wagl.acquisition.acquisitions]: the container it returns is not used,
    and [Raise e] is an exception that [except Exception] catches. *)
Variable acquisitions : string -> result unit.

(** [Package(level1, workdir='', granule, pkgdir).output().exists()] *)
Variable package_output_exists : string -> string -> string -> bool.

Local Open Scope filter_scope.

Definition package_exists (level1 granule pkgdir : string) : M bool :=
  emit (PackageExists level1 granule pkgdir) ;;
  ret (package_output_exists level1 granule pkgdir).

(** [tile_id in good_tile_ids], a set of strings. *)
Definition in_set (x : string) (s : list string) : bool :=
  existsb (String.eqb x) s.

(** Lines 118-137: the body of the loop over [granule_md.items()]. *)
Definition granule_body (level1_dataset : Path) (good_tile_ids : list string)
           (pkgdir : string) (granule_md : dict datetime)
           (item : pykey * datetime) (count : Z) : M (flow Z) :=
  let (granule, sensing_date) := item in
  match granule with
  | None => lift (Raise AttributeError)
  | Some granule =>
      tile_id <- lift (item_neg2 (Str.split "_" granule)) ;;
      if negb (in_set tile_id good_tile_ids) then
        emit (Log INFO "granule %s with MGRS tile ID %s outside AOI"
                  [AStr granule; AStr tile_id]) ;;
        ret (Return count)
      else
        let ymd := strftime sensing_date "%Y-%m-%d" in
        found <- package_exists (str level1_dataset) granule
                                (os_path_join pkgdir ymd) ;;
        if found then
          emit (Log DEBUG "granule %s already processed" [AStr granule]) ;;
          ret (Return count)
        else
          emit (Log INFO "level1 dataset %s needs to be processed"
                    [AStr (str level1_dataset)]) ;;
          emit (Print (str level1_dataset)) ;;
          ret (Break (count + Z.of_nat (length granule_md))%Z)
  end.

(** A [for] loop threading [count]: it goes on to the next item only when
    the body falls through. *)
Fixpoint for_items {X} (body : X -> Z -> M (flow Z)) (items : list X)
         (count : Z) : M (flow Z) :=
  match items with
  | [] => ret (Next count)
  | item :: rest =>
      r <- body item count ;;
      match r with
      | Next count' => for_items body rest count'
      | Break count' => ret (Break count')
      | Return v => ret (Return v)
      end
  end.

Definition filter_granule (level1_dataset : Path)
           (good_tile_ids : list string) (pkgdir : string) (count : Z)
  : M Z :=
  match acquisitions (str level1_dataset) with
  | Raise e =>
      emit (Log WARNING "encountered unexpected error for %s: %s"
                [AStr (str level1_dataset); AExn e]) ;;
      emit (LogException e) ;;
      ret count
  | Ok container =>
      granule_md <-
        lift (get_archive_metadata date_parser fs level1_dataset) ;;
      r <- for_items
             (granule_body level1_dataset good_tile_ids pkgdir granule_md)
             granule_md count ;;
      match r with
      | Return v => ret v
      | Break count' | Next count' => ret count'
      end
  end.

Fixpoint filter_granules_from (raw_zips : list Path)
         (good_tile_ids : list string) (pkgdir : string) (count : Z)
  : M Z :=
  match raw_zips with
  | [] => ret count
  | level1_dataset :: rest =>
      count' <- filter_granule level1_dataset good_tile_ids pkgdir count ;;
      filter_granules_from rest good_tile_ids pkgdir count'
  end.

(** The output stream returned with the count is the one written to: its
    content is [printed] of the run's events. *)
Definition filter_granules (raw_zips : list Path)
           (good_tile_ids : list string) (pkgdir : string) : M Z :=
  filter_granules_from raw_zips good_tile_ids pkgdir 0%Z.

(** *** The decision taken for one dataset

    What [filter_granule] does with a dataset, read off the first item of
    the extracted mapping. *)

Inductive decision : Type :=
| Skipped (e : exn)
| Failed (e : exn)
| Empty
| OutsideAOI (granule tile_id : string)
| Processed (granule pkgdir : string)
| Accepted (granule pkgdir : string) (granules : nat).

Definition decide (level1_dataset : Path) (good_tile_ids : list string)
           (pkgdir : string) : decision :=
  match acquisitions (str level1_dataset) with
  | Raise e => Skipped e
  | Ok _ =>
      match get_archive_metadata date_parser fs level1_dataset with
      | Raise e => Failed e
      | Ok [] => Empty
      | Ok ((None, _) :: _) => Failed AttributeError
      | Ok ((Some granule, sensing_date) :: rest) =>
          match item_neg2 (Str.split "_" granule) with
          | Raise e => Failed e
          | Ok tile_id =>
              if in_set tile_id good_tile_ids then
                let dir := os_path_join pkgdir
                             (strftime sensing_date "%Y-%m-%d") in
                if package_output_exists (str level1_dataset) granule dir
                then Processed granule dir
                else Accepted granule dir (S (length rest))
              else OutsideAOI granule tile_id
          end
      end
  end.

Definition accepted (good_tile_ids : list string) (pkgdir : string)
           (level1_dataset : Path) : bool :=
  match decide level1_dataset good_tile_ids pkgdir with
  | Accepted _ _ _ => true
  | _ => false
  end.

(** The events and the outcome that go with a decision. *)
Definition run_of (level1_dataset : Path) (dec : decision) (count : Z)
  : M Z :=
  match dec with
  | Skipped e =>
      ([Log WARNING "encountered unexpected error for %s: %s"
            [AStr (str level1_dataset); AExn e];
        LogException e], Ok count)
  | Failed e => ([], Raise e)
  | Empty => ([], Ok count)
  | OutsideAOI granule tile_id =>
      ([Log INFO "granule %s with MGRS tile ID %s outside AOI"
            [AStr granule; AStr tile_id]], Ok count)
  | Processed granule dir =>
      ([PackageExists (str level1_dataset) granule dir;
        Log DEBUG "granule %s already processed" [AStr granule]], Ok count)
  | Accepted granule dir n =>
      ([PackageExists (str level1_dataset) granule dir;
        Log INFO "level1 dataset %s needs to be processed"
            [AStr (str level1_dataset)];
        Print (str level1_dataset)], Ok (count + Z.of_nat n)%Z)
  end.

End Filter.

(** ** Notions the properties of the extractor are stated with *)

(** The layout of a granule's document beside a reference, as the spec words
    it: [GRANULE/<granule_id>/<transformed_id>.xml], where the transformed
    identifier drops the last seven characters of the identifier and has
    [MTD] for [MSI]. *)
Definition transformed_id (granule_id : string) : string :=
  Str.replace "MSI" "MTD" (Str.drop_last 7 granule_id).

Definition granule_layout (base : Path) (granule_id : string) : Path :=
  mkPath (root base)
         (parts base
          ++ ["GRANULE"; granule_id; (transformed_id granule_id ++ ".xml")%string]).

Fixpoint has_slash (s : string) : bool :=
  match s with
  | EmptyString => false
  | String c s' => Ascii.eqb c "/" || has_slash s'
  end.

(** A string that is one component of a path. *)
Definition path_segment (s : string) : bool :=
  negb (has_slash s) && negb (String.eqb s EmptyString) && negb (String.eqb s ".").

(** A search path without its last segment, as the spec words the second
    search for the granule list. *)
Definition minus_final_segment (path : string) : string :=
  String.concat "/" (removelast (Str.split "/" path)).

(** [at_depth n f e] applies [f] to the elements [n] levels below [e]. *)
Fixpoint at_depth (n : nat) (f : Element -> Element) (e : Element) : Element :=
  match n with
  | O => f e
  | S n' =>
      match e with
      | mkElement t a x cs => mkElement t a x (map (at_depth n' f) cs)
      end
  end.

(** The number of levels a search goes down. *)
Fixpoint levels (steps : list step) : nat :=
  match steps with
  | [] => 0
  | Self :: rest => levels rest
  | _ :: rest => S (levels rest)
  end.

Definition image_tag (e : Element) : bool :=
  String.eqb (tag e) "IMAGE_ID" || String.eqb (tag e) "IMAGE_FILE".

Definition drop_image_children (e : Element) : Element :=
  mkElement (tag e) (attrib e) (text e)
            (filter (fun c => negb (image_tag c)) (children e)).

(** A document without the [IMAGE_ID] and [IMAGE_FILE] children of the
    elements at the depth of the granule elements, five levels below the
    root. *)
Definition erase_image_ids (doc : Element) : Element :=
  at_depth 5 drop_image_children doc.

Definition erase_member (m : string * option Element) : string * option Element :=
  (fst m, option_map erase_image_ids (snd m)).

(** A file system with these children erased from every document, in the
    archives and outside them. *)
Definition erase_fs (fs : filesystem) : filesystem :=
  fun path =>
    match fs path with
    | ZipArchive a => ZipArchive (map erase_member a)
    | XmlFile e => XmlFile (erase_image_ids e)
    | node => node
    end.

(** ** Sample products

    Documents, archives and a file system in the two naming schemes of
    Sentinel-2 level-1C products, used to run the definitions. *)

Module Sample.

Definition leaf (t : string) (x : string) : Element :=
  mkElement t [] (Some x) [].

(** Product metadata: [granules] are the children of [Granule_List]. *)
Definition product_doc (baseline : string) (granules : list Element)
  : Element :=
  mkElement "n1:Level-1C_User_Product" [] None
    [mkElement "n1:General_Info" [] None
       [mkElement "Product_Info" [] None
          [leaf "PROCESSING_BASELINE" baseline;
           mkElement "Product_Organisation" [] None
             [mkElement "Granule_List" [] None granules]]]].

(** Granule metadata with its sensing time. *)
Definition tile_doc (sensing_time : string) : Element :=
  mkElement "n1:Level-1C_Tile_ID" [] None
    [mkElement "n1:General_Info" [] None
       [leaf "SENSING_TIME" sensing_time]].

(** Earlier products: [Granules] elements with [IMAGE_ID] children. *)
Definition old_granule (gran_id : string) : Element :=
  mkElement "Granules" [("granuleIdentifier", gran_id)] None
    [leaf "IMAGE_ID" (gran_id ++ "_B01")].

(** Later products: [Granule] elements with [IMAGE_FILE] children. *)
Definition new_granule (gran_id : string) : Element :=
  mkElement "Granule" [("granuleIdentifier", gran_id)] None
    [leaf "IMAGE_FILE" ("GRANULE/" ++ gran_id ++ "/IMG_DATA/B01")].

Definition gid_55HFA : string :=
  "S2A_OPER_MSI_L1C_TL_SGS__20210301T001200_A029000_T55HFA_N02.09".
Definition gid_50HMH : string :=
  "S2A_OPER_MSI_L1C_TL_SGS__20210301T001200_A029000_T50HMH_N02.09".
Definition gid_99ZZZ : string :=
  "S2A_OPER_MSI_L1C_TL_SGS__20210301T001200_A029000_T99ZZZ_N02.09".
Definition gid_old : string :=
  "S2A_OPER_MSI_L1C_TL_SGS__20160101T001200_A002000_T55HFA_N02.01".

(** A later-scheme archive of one granule. *)
Definition zip_new (gran_id : string) : archive :=
  [("S2A_MSIL1C.SAFE/MTD_MSIL1C.xml",
    Some (product_doc "02.09" [new_granule gran_id]));
   ("S2A_MSIL1C.SAFE/GRANULE/" ++ gran_id ++ "/MTD_TL.xml",
    Some (tile_doc "2021-03-01T00:12:00Z"))]%string.

(** An earlier-scheme archive: neither member name holds a canonical
    token. *)
Definition zip_old : archive :=
  [("S2A_OPER_PRD_MSIL1C_PDMC_R030.SAFE/S2A_OPER_MTD_SAFL1C_PDMC_R030.xml",
    Some (product_doc "02.01" [old_granule gid_old]));
   ("S2A_OPER_PRD_MSIL1C_PDMC_R030.SAFE/GRANULE/" ++ gid_old
      ++ "/S2A_OPER_MTD_L1C_TL_SGS__20160101T001200_A002000_T55HFA.xml",
    Some (tile_doc "2016-01-01T00:12:00Z"))]%string.

(** An archive without product metadata. *)
Definition zip_bare : archive :=
  [("S2A_MSIL1C.SAFE/INSPIRE.xml", Some (leaf "inspire" EmptyString))].

(** Two granules, the first outside the region of interest used below. *)
Definition zip_two : archive :=
  [("S2A_MSIL1C.SAFE/MTD_MSIL1C.xml",
    Some (product_doc "02.09" [new_granule gid_99ZZZ; new_granule gid_50HMH]));
   ("S2A_MSIL1C.SAFE/GRANULE/" ++ gid_99ZZZ ++ "/MTD_TL.xml",
    Some (tile_doc "2021-03-01T00:12:00Z"))]%string.

Definition d_55HFA : Path := mkPath "/" ["data"; "S2A_55HFA.zip"].
Definition d_50HMH : Path := mkPath "/" ["data"; "S2A_50HMH.zip"].
Definition d_old : Path :=
  mkPath "/" ["data"; "S2A_OPER_PRD_MSIL1C_PDMC_R030.zip"].
Definition d_bare : Path := mkPath "/" ["data"; "S2A_bare.zip"].
Definition d_two : Path := mkPath "/" ["data"; "S2A_two.zip"].

(** A reference that is a directory, holding the product metadata and the
    granule's document in the layout of an expanded product. *)
Definition d_dir : Path := mkPath "/" ["data"; "S2A_DIR.SAFE"].

(** An archive whose name does not end in [.zip], with the granule's
    document beside it. *)
Definition d_upper : Path := mkPath "/" ["data"; "S2A_UPPER.ZIP"].

Definition zip_product_only : archive :=
  [("S2A_MSIL1C.SAFE/MTD_MSIL1C.xml",
    Some (product_doc "02.09" [new_granule gid_55HFA]))].

(** The granule identifier sits on the [Granule_List] element, which has no
    [Granules] or [Granule] child. *)
Definition list_node_doc : Element :=
  mkElement "n1:Level-1C_User_Product" [] None
    [mkElement "n1:General_Info" [] None
       [mkElement "Product_Info" [] None
          [leaf "PROCESSING_BASELINE" "02.09";
           mkElement "Product_Organisation" [] None
             [mkElement "Granule_List" [("granuleIdentifier", gid_55HFA)]
                        None []]]]].

Definition zip_list_node : archive :=
  [("S2A_MSIL1C.SAFE/MTD_MSIL1C.xml", Some list_node_doc);
   ("S2A_MSIL1C.SAFE/GRANULE/" ++ gid_55HFA ++ "/MTD_TL.xml",
    Some (tile_doc "2021-03-01T00:12:00Z"))]%string.

Definition d_list_node : Path := mkPath "/" ["data"; "S2A_list.zip"].

Definition tid_55HFA : string :=
  "S2A_OPER_MTD_L1C_TL_SGS__20210301T001200_A029000_T55HFA".

Definition files : list (string * fsnode) :=
  [("/data", Directory);
   ("/data/S2A_55HFA.zip", ZipArchive (zip_new gid_55HFA));
   ("/data/S2A_50HMH.zip", ZipArchive (zip_new gid_50HMH));
   ("/data/S2A_OPER_PRD_MSIL1C_PDMC_R030.zip", ZipArchive zip_old);
   ("/data/S2A_bare.zip", ZipArchive zip_bare);
   ("/data/S2A_two.zip", ZipArchive zip_two);
   ("/data/S2A_list.zip", ZipArchive zip_list_node);
   ("/data/S2A_UPPER.ZIP", ZipArchive zip_product_only);
   ("/data/GRANULE", Directory);
   ("/data/GRANULE/" ++ gid_55HFA, Directory);
   ("/data/GRANULE/" ++ gid_55HFA ++ "/" ++ tid_55HFA ++ ".xml",
    XmlFile (tile_doc "2021-03-01T00:12:00Z"));
   ("/data/S2A_DIR.SAFE", Directory);
   ("/data/S2A_DIR.SAFE/MTD_MSIL1C.xml",
    XmlFile (product_doc "02.09" [new_granule gid_55HFA]));
   ("/data/S2A_DIR.SAFE/GRANULE", Directory);
   ("/data/S2A_DIR.SAFE/GRANULE/" ++ gid_55HFA, Directory);
   ("/data/S2A_DIR.SAFE/GRANULE/" ++ gid_55HFA ++ "/" ++ tid_55HFA ++ ".xml",
    XmlFile (tile_doc "2021-03-01T00:12:00Z"))]%string.

Fixpoint lookup (table : list (string * fsnode)) (path : string) : fsnode :=
  match table with
  | [] => Missing
  | (k, node) :: rest => if String.eqb path k then node else lookup rest path
  end.

Definition fs : filesystem := lookup files.

(** The same files, with [IMAGE_ID] children of other contents where [fs]
    has [IMAGE_FILE] children in the product metadata of [d_55HFA]. *)
Definition other_granule (gran_id : string) : Element :=
  mkElement "Granule" [("granuleIdentifier", gran_id)] None
    [leaf "IMAGE_ID" "B01"; leaf "IMAGE_ID" "B02"].

Definition zip_other : archive :=
  [("S2A_MSIL1C.SAFE/MTD_MSIL1C.xml",
    Some (product_doc "02.09" [other_granule gid_55HFA]));
   ("S2A_MSIL1C.SAFE/GRANULE/" ++ gid_55HFA ++ "/MTD_TL.xml",
    Some (tile_doc "2021-03-01T00:12:00Z"))]%string.

Definition fs_other : filesystem :=
  fun path =>
    if String.eqb path "/data/S2A_55HFA.zip" then ZipArchive zip_other
    else fs path.

(** Time stamps are kept as the text parsed; the date is its first ten
    characters. *)
Definition date_parser (o : option string) : result string :=
  match o with
  | Some s => Ok s
  | None => Raise TypeError
  end.

Definition strftime (d : string) (fmt : string) : string :=
  String.substring 0 10 d.

Definition acquisitions (path : string) : result unit := Ok tt.

(** A package store with nothing in it, and one holding every package. *)
Definition nothing_packaged (level1 granule pkgdir : string) : bool := false.
Definition all_packaged (level1 granule pkgdir : string) : bool := true.

End Sample.

(** ** Notions the properties of a batch are stated with *)

Section Batch.

Variable datetime : Type.
Variable date_parser : option string -> result datetime.
Variable fs : filesystem.

(** The number of items of the mapping extracted from a dataset, 0 when the
    extraction raises. *)
Definition mapping_size (level1_dataset : Path) : nat :=
  match get_archive_metadata date_parser fs level1_dataset with
  | Ok granule_md => length granule_md
  | Raise _ => 0
  end.

End Batch.

(** [c in s], for a character. *)
Fixpoint has_char (c : ascii) (s : string) : bool :=
  match s with
  | EmptyString => false
  | String c' s' => Ascii.eqb c' c || has_char c s'
  end.

(** ** calcnodes.py

    [calc_nodes_req] and [file_len].  Floats are
    IEEE 754 binary64 values, with the operations of the standard library's
    specification of them; the exceptions are those the functions can
    raise. *)

Module Calcnodes.

Inductive error : Type :=
| ValueError
| ZeroDivisionError
| OverflowError
| UnboundLocalError
| OSError.

Inductive outcome (A : Type) : Type :=
| Returns (a : A)
| Raises (e : error).
Arguments Returns {A} a.
Arguments Raises {A} e.

Definition obind {A B} (r : outcome A) (k : A -> outcome B) : outcome B :=
  match r with
  | Returns a => k a
  | Raises e => Raises e
  end.

Declare Scope outcome_scope.
Delimit Scope outcome_scope with outcome.
Notation "x <- r ;; k" := (obind r (fun x => k))
  (at level 61, r at next level, right associativity) : outcome_scope.

Definition prec : Z := 53.
Definition emax : Z := 1024.

(** Conversion of an [int] where a float is wanted: to the nearest float,
    ties to even, [OverflowError] past the largest one. *)
Definition float_of_int (n : Z) : outcome spec_float :=
  match binary_normalize prec emax n 0 false with
  | S754_infinity _ => Raises OverflowError
  | x => Returns x
  end.

(** [x * n] for a float and an [int]. *)
Definition float_mul_int (x : spec_float) (n : Z) : outcome spec_float :=
  (y <- float_of_int n ;; Returns (SFmul prec emax x y))%outcome.

(** [x / n] for a float and an [int]. *)
Definition float_div_int (x : spec_float) (n : Z) : outcome spec_float :=
  (y <- float_of_int n ;;
   match y with
   | S754_zero _ => Raises ZeroDivisionError
   | _ => Returns (SFdiv prec emax x y)
   end)%outcome.

(** [math.ceil(x)] *)
Definition math_ceil (x : spec_float) : outcome Z :=
  match x with
  | S754_zero _ => Returns 0%Z
  | S754_infinity _ => Raises OverflowError
  | S754_nan => Raises ValueError
  | S754_finite s m e =>
      let signed := if s then Z.neg m else Z.pos m in
      Returns (if (0 <=? e)%Z then (signed * 2 ^ e)%Z
               else (- ((- signed) / 2 ^ (- e)))%Z)
  end.

(** The default of [hours_per_granule]: 1.5 *)
Definition default_hours_per_granule : spec_float :=
  S754_finite false 6755399441055744 (-52).

(** The newline character. *)
Definition newline : ascii := "010"%char.

(** The lines iterating a text file yields: each ends with its newline,
    but for a last line that has none. *)
Fixpoint lines_from (current text : string) : list string :=
  match text with
  | EmptyString =>
      match current with
      | EmptyString => []
      | _ => [current]
      end
  | String c rest =>
      if Ascii.eqb c newline
      then (current ++ String c EmptyString)%string :: lines_from EmptyString rest
      else lines_from (current ++ String c EmptyString)%string rest
  end.

(** The number of newline characters of a text. *)
Fixpoint newlines (text : string) : nat :=
  match text with
  | EmptyString => 0
  | String c rest => (if Ascii.eqb c newline then 1 else 0) + newlines rest
  end.

(** The last character of a text. *)
Fixpoint last_char (text : string) : option ascii :=
  match text with
  | EmptyString => None
  | String c EmptyString => Some c
  | String _ rest => last_char rest
  end.

(** A text whose last line has no newline. *)
Definition unterminated (text : string) : bool :=
  match last_char text with
  | Some c => negb (Ascii.eqb c newline)
  | None => false
  end.

(** [for i, l in enumerate(f): pass], with [i] unbound until the first
    line. *)
Fixpoint enumerate_pass (lines : list string) (index : nat) (i : option nat)
  : option nat :=
  match lines with
  | [] => i
  | _ :: rest => enumerate_pass rest (S index) (Some index)
  end.

Section Functions.

(** [int(x)] for a string: [None] when it raises [ValueError]. *)
Variable int : string -> option Z.

(** [open(fname)] and the reading of the file: its text, with the line ends
    translated, or the error raised. *)
Variable open : string -> outcome string.

Local Open Scope outcome_scope.

(** [[int(x) for x in fields]] *)
Fixpoint ints (fields : list string) : outcome (list Z) :=
  match fields with
  | [] => Returns []
  | x :: rest =>
      match int x with
      | None => Raises ValueError
      | Some n => ns <- ints rest ;; Returns (n :: ns)
      end
  end.

(** [hours, _, _ = values] *)
Definition unpack3 (values : list Z) : outcome Z :=
  match values with
  | [hours; _; _] => Returns hours
  | _ => Raises ValueError
  end.

Definition calc_nodes_req (granule_count : Z) (walltime : string)
           (workers : Z) (hours_per_granule : spec_float) : outcome Z :=
  values <- ints (Str.split ":" walltime) ;;
  hours <- unpack3 values ;;
  work <- float_mul_int hours_per_granule granule_count ;;
  quotient <- float_div_int work (hours * workers) ;;
  math_ceil quotient.

Definition file_len (fname : string) : outcome Z :=
  text <- open fname ;;
  match enumerate_pass (lines_from EmptyString text) 0 None with
  | None => Raises UnboundLocalError
  | Some i => Returns (Z.of_nat i + 1)%Z
  end.

End Functions.

(** Decimal digits only, for running the functions. *)
Fixpoint digits_value (s : string) (acc : Z) : option Z :=
  match s with
  | EmptyString => Some acc
  | String c rest =>
      let n := Z.of_nat (nat_of_ascii c) in
      if ((48 <=? n) && (n <=? 57))%Z
      then digits_value rest (acc * 10 + (n - 48))%Z
      else None
  end.

Definition sample_int (s : string) : option Z :=
  match s with
  | EmptyString => None
  | _ => digits_value s 0%Z
  end.

Definition sample_open (fname : string) : outcome string :=
  if String.eqb fname "empty.txt" then Returns EmptyString
  else if String.eqb fname "two.txt"
       then Returns ("/data/a.zip" ++ String newline "/data/b.zip")%string
  else if String.eqb fname "three.txt"
       then Returns ("a" ++ String newline ("b" ++ String newline
                     ("c" ++ String newline EmptyString)))%string
  else Raises OSError.

End Calcnodes.

(** ** More sample products *)

Module SampleMore.

(** An archive of two granules, each with its own [MTD_TL.xml] and its own
    sensing time. *)
Definition zip_multi : archive :=
  [("S2A_MSIL1C.SAFE/MTD_MSIL1C.xml",
    Some (Sample.product_doc "02.09"
            [Sample.new_granule Sample.gid_55HFA;
             Sample.new_granule Sample.gid_50HMH]));
   ("S2A_MSIL1C.SAFE/GRANULE/" ++ Sample.gid_55HFA ++ "/MTD_TL.xml",
    Some (Sample.tile_doc "2021-03-01T00:12:00Z"));
   ("S2A_MSIL1C.SAFE/GRANULE/" ++ Sample.gid_50HMH ++ "/MTD_TL.xml",
    Some (Sample.tile_doc "2021-04-02T00:12:00Z"))]%string.

(** The same granule identifier on two elements, and an identifier without
    underscore. *)
Definition zip_twice : archive :=
  [("S2A_MSIL1C.SAFE/MTD_MSIL1C.xml",
    Some (Sample.product_doc "02.09"
            [Sample.new_granule Sample.gid_55HFA;
             Sample.new_granule Sample.gid_50HMH;
             Sample.new_granule Sample.gid_55HFA]));
   ("S2A_MSIL1C.SAFE/GRANULE/" ++ Sample.gid_55HFA ++ "/MTD_TL.xml",
    Some (Sample.tile_doc "2021-03-01T00:12:00Z"))]%string.

Definition zip_plain_id : archive :=
  [("S2A_MSIL1C.SAFE/MTD_MSIL1C.xml",
    Some (Sample.product_doc "02.09" [Sample.new_granule "T55HFA"]));
   ("S2A_MSIL1C.SAFE/GRANULE/T55HFA/MTD_TL.xml",
    Some (Sample.tile_doc "2021-03-01T00:12:00Z"))].

(** A granule element without [granuleIdentifier]. *)
Definition zip_no_id : archive :=
  [("S2A_MSIL1C.SAFE/MTD_MSIL1C.xml",
    Some (Sample.product_doc "02.09" [mkElement "Granule" [] None []]));
   ("S2A_MSIL1C.SAFE/GRANULE/x/MTD_TL.xml",
    Some (Sample.tile_doc "2021-03-01T00:12:00Z"))].

Definition d_multi : Path := mkPath "/" ["data"; "S2A_multi.zip"].
Definition d_twice : Path := mkPath "/" ["data"; "S2A_twice.zip"].
Definition d_plain_id : Path := mkPath "/" ["data"; "S2A_plain.zip"].
Definition d_no_id : Path := mkPath "/" ["data"; "S2A_noid.zip"].

Definition files : list (string * fsnode) :=
  [("/data/S2A_multi.zip", ZipArchive zip_multi);
   ("/data/S2A_twice.zip", ZipArchive zip_twice);
   ("/data/S2A_plain.zip", ZipArchive zip_plain_id);
   ("/data/S2A_noid.zip", ZipArchive zip_no_id)].

Definition fs : filesystem :=
  fun path =>
    match Sample.lookup files path with
    | Missing => Sample.fs path
    | node => node
    end.

(** A package store holding a package for one granule only. *)
Definition only_50HMH_packaged (level1 granule pkgdir : string) : bool :=
  String.eqb granule Sample.gid_50HMH.

(** [acquisitions] failing on one dataset. *)
Definition acquisitions_but_bare (path : string) : result unit :=
  if String.eqb path "/data/S2A_bare.zip"
  then Raise (OtherError "No acquisitions found")
  else Ok tt.

End SampleMore.

(** * Properties of the filter *)

Unset Implicit Arguments.

Section FilterProperties.

Variable datetime : Type.
Variable date_parser : option string -> result datetime.
Variable strftime : datetime -> string -> string.
Variable fs : filesystem.
Variable acquisitions : string -> result unit.
Variable package_output_exists : string -> string -> string -> bool.

Local Abbreviation filter_granule :=
  (filter_granule date_parser strftime fs acquisitions package_output_exists).
Local Abbreviation filter_granules_from :=
  (filter_granules_from date_parser strftime fs acquisitions
                        package_output_exists).
Local Abbreviation filter_granules :=
  (filter_granules date_parser strftime fs acquisitions package_output_exists).
Local Abbreviation decide :=
  (decide date_parser strftime fs acquisitions package_output_exists).
Local Abbreviation accepted :=
  (accepted date_parser strftime fs acquisitions package_output_exists).

Lemma filter_granule_run (d : Path) (good : list string) (pkgdir : string)
      (count : Z) :
  filter_granule d good pkgdir count = run_of d (decide d good pkgdir) count.
Proof.
  unfold filter_granule, decide.
  destruct (acquisitions (str d)) as [[]|e]; [|reflexivity].
  destruct (get_archive_metadata date_parser fs d)
    as [[|[[g|] sd] rest]|e]; try reflexivity.
  cbn [lift bind for_items granule_body].
  destruct (item_neg2 (Str.split "_" g)) as [t|e]; [|reflexivity].
  cbn [lift bind].
  destruct (in_set t good); cbn [negb]; [|reflexivity].
  unfold package_exists. cbn [emit bind ret app].
  destruct (package_output_exists _ _ _); reflexivity.
Qed.

Lemma printed_app (t1 t2 : list event) :
  printed (t1 ++ t2) = printed t1 ++ printed t2.
Proof. unfold printed. apply flat_map_app. Qed.

Lemma printed_filter_granule (d : Path) (good : list string)
      (pkgdir : string) (count : Z) :
  printed (fst (filter_granule d good pkgdir count))
  = if accepted good pkgdir d then [str d] else [].
Proof.
  rewrite filter_granule_run. unfold accepted.
  destruct (decide d good pkgdir); reflexivity.
Qed.

Lemma exists_calls_filter_granule (d : Path) (good : list string)
      (pkgdir : string) (count : Z) :
  exists_calls (fst (filter_granule d good pkgdir count))
  = match decide d good pkgdir with
    | Processed g dir | Accepted g dir _ => [(str d, g, dir)]
    | _ => []
    end.
Proof.
  rewrite filter_granule_run.
  destruct (decide d good pkgdir); reflexivity.
Qed.

(** C2. When the first item of the extracted mapping is a granule whose tile
    code, the second-to-last token of its identifier between underscores, is
    not in the region of interest, [filter_granule] returns the count it was
    given, writes nothing to the output stream and makes no existence check:
    its only event is the log line about the granule.  The rest of the
    mapping is arbitrary, so nothing after the first granule is looked at,
    whatever tile codes it holds. *)
Theorem first_granule_outside_roi_rejects
        (d : Path) (good : list string) (pkgdir : string) (count : Z)
        (granule : string) (sensing_date : datetime)
        (rest : dict datetime) (tile_id : string) :
  acquisitions (str d) = Ok tt ->
  get_archive_metadata date_parser fs d
  = Ok ((Some granule, sensing_date) :: rest) ->
  item_neg2 (Str.split "_" granule) = Ok tile_id ->
  in_set tile_id good = false ->
  filter_granule d good pkgdir count
  = ([Log INFO "granule %s with MGRS tile ID %s outside AOI"
          [AStr granule; AStr tile_id]], Ok count)
  /\ printed (fst (filter_granule d good pkgdir count)) = []
  /\ exists_calls (fst (filter_granule d good pkgdir count)) = []
  /\ snd (filter_granule d good pkgdir count) = Ok count.
Proof.
  intros Hacq Hmd Htile Hout.
  assert (Hdec : decide d good pkgdir = OutsideAOI granule tile_id).
  { unfold decide. rewrite Hacq, Hmd, Htile, Hout. reflexivity. }
  rewrite filter_granule_run, Hdec. cbn. repeat split.
Qed.

(** C3. When the first granule of the extracted mapping has its tile code in
    the region of interest and no package exists for it, the dataset is
    written to the output stream once and the count grows by the number of
    items of the whole mapping; the one existence check made is for the
    first granule, so the other granules are not examined. *)
Theorem accepted_dataset_adds_all_granules
        (d : Path) (good : list string) (pkgdir : string) (count : Z)
        (granule : string) (sensing_date : datetime)
        (rest : dict datetime) (tile_id : string) :
  acquisitions (str d) = Ok tt ->
  get_archive_metadata date_parser fs d
  = Ok ((Some granule, sensing_date) :: rest) ->
  item_neg2 (Str.split "_" granule) = Ok tile_id ->
  in_set tile_id good = true ->
  package_output_exists (str d) granule
    (os_path_join pkgdir (strftime sensing_date "%Y-%m-%d")) = false ->
  snd (filter_granule d good pkgdir count)
  = Ok (count + Z.of_nat (length ((Some granule, sensing_date) :: rest)))%Z
  /\ printed (fst (filter_granule d good pkgdir count)) = [str d]
  /\ exists_calls (fst (filter_granule d good pkgdir count))
     = [(str d, granule,
         os_path_join pkgdir (strftime sensing_date "%Y-%m-%d"))].
Proof.
  intros Hacq Hmd Htile Hin Hnew.
  assert (Hdec : decide d good pkgdir
                 = Accepted granule
                     (os_path_join pkgdir (strftime sensing_date "%Y-%m-%d"))
                     (S (length rest))).
  { unfold decide. rewrite Hacq, Hmd, Htile, Hin. cbn zeta.
    rewrite Hnew. reflexivity. }
  rewrite filter_granule_run, Hdec. cbn [run_of fst snd length].
  repeat split.
Qed.

(** C4. [filter_granule] asks at most once whether a package exists, and when
    it asks, it asks about the first granule of the extracted mapping, whose
    tile code is in the region of interest; after the answer, either way, no
    other check follows. *)
Theorem package_existence_checked_at_most_once
        (d : Path) (good : list string) (pkgdir : string) (count : Z) :
  (length (exists_calls (fst (filter_granule d good pkgdir count))) <= 1)%nat
  /\ forall call,
      In call (exists_calls (fst (filter_granule d good pkgdir count))) ->
      exists granule sensing_date rest tile_id,
        get_archive_metadata date_parser fs d
        = Ok ((Some granule, sensing_date) :: rest)
        /\ item_neg2 (Str.split "_" granule) = Ok tile_id
        /\ in_set tile_id good = true
        /\ call = (str d, granule,
                   os_path_join pkgdir (strftime sensing_date "%Y-%m-%d"))
        /\ exists_calls (fst (filter_granule d good pkgdir count)) = [call].
Proof.
  rewrite exists_calls_filter_granule.
  unfold decide.
  destruct (acquisitions (str d)) as [[]|e]; [|cbn; split; [lia|tauto]].
  destruct (get_archive_metadata date_parser fs d)
    as [[|[[g|] sd] rest]|e]; try (cbn; split; [lia|tauto]).
  destruct (item_neg2 (Str.split "_" g)) as [t|e] eqn:Ht;
    [|cbn; split; [lia|tauto]].
  destruct (in_set t good) eqn:Hin; [|cbn; split; [lia|tauto]].
  cbn zeta.
  destruct (package_output_exists _ _ _); cbn; (split; [lia|]);
    intros call [<-|[]]; exists g, sd, rest, t; repeat split; assumption.
Qed.

(** C10. One evaluation of [filter_granule] writes the dataset to the output
    stream once or not at all, and writes nothing else. *)
Theorem dataset_written_at_most_once
        (d : Path) (good : list string) (pkgdir : string) (count : Z) :
  printed (fst (filter_granule d good pkgdir count)) = []
  \/ printed (fst (filter_granule d good pkgdir count)) = [str d].
Proof.
  rewrite printed_filter_granule.
  destruct (accepted good pkgdir d); [right|left]; reflexivity.
Qed.

Lemma bind_fst {A B} (m : M A) (k : A -> M B) :
  fst (bind m k)
  = match snd m with
    | Ok a => fst m ++ fst (k a)
    | Raise _ => fst m
    end.
Proof.
  destruct m as [t [a|e]]; cbn; [|reflexivity].
  destruct (k a); reflexivity.
Qed.

Lemma bind_snd {A B} (m : M A) (k : A -> M B) :
  snd (bind m k)
  = match snd m with
    | Ok a => snd (k a)
    | Raise e => Raise e
    end.
Proof.
  destruct m as [t [a|e]]; cbn; [|reflexivity].
  destruct (k a); reflexivity.
Qed.

Lemma printed_filter_granules_from (ds : list Path) (good : list string)
      (pkgdir : string) :
  forall count,
    (forall c, snd (filter_granules_from ds good pkgdir count) = Ok c ->
               printed (fst (filter_granules_from ds good pkgdir count))
               = map str (filter (accepted good pkgdir) ds))
    /\ exists n,
        printed (fst (filter_granules_from ds good pkgdir count))
        = map str (filter (accepted good pkgdir) (firstn n ds)).
Proof.
  induction ds as [|d ds IH]; intros count.
  - split; [reflexivity|]. exists 0%nat. reflexivity.
  - cbn [filter_granules_from filter].
    rewrite bind_fst, bind_snd.
    pose proof (printed_filter_granule d good pkgdir count) as Hd.
    destruct (snd (filter_granule d good pkgdir count)) as [count'|e].
    + destruct (IH count') as [IHok [n IHn]].
      rewrite printed_app, Hd. split.
      * intros c Hc. rewrite (IHok c Hc).
        destruct (accepted good pkgdir d); reflexivity.
      * exists (S n). rewrite IHn. cbn [firstn filter].
        destruct (accepted good pkgdir d); reflexivity.
    + split; [discriminate|].
      exists 1%nat. rewrite Hd. cbn [firstn filter].
      destruct (accepted good pkgdir d); reflexivity.
Qed.

Lemma filter_granules_from_app (ds1 ds2 : list Path) (good : list string)
      (pkgdir : string) :
  forall count,
    filter_granules_from (ds1 ++ ds2) good pkgdir count
    = bind (filter_granules_from ds1 good pkgdir count)
           (fun c => filter_granules_from ds2 good pkgdir c).
Proof.
  induction ds1 as [|d ds1 IH]; intros count.
  - cbn. destruct (filter_granules_from ds2 good pkgdir count). reflexivity.
  - cbn [app filter_granules_from].
    destruct (filter_granule d good pkgdir count) as [t [c|e]];
      [|reflexivity].
    cbn [bind]. rewrite IH.
    destruct (filter_granules_from ds1 good pkgdir c) as [t1 [c1|e1]];
      cbn [bind]; [|reflexivity].
    destruct (filter_granules_from ds2 good pkgdir c1) as [t2 r2].
    rewrite app_assoc. reflexivity.
Qed.

(** C5. The lines [filter_granules] writes are the accepted datasets of its
    input, in input order: all of them when it returns, and those of a prefix
    of the input in any case.  The datasets are run one after the other: the
    events of a run over [ds1 ++ ds2] are those of the run over [ds1]
    followed by those of the run over [ds2], started from the count reached,
    so what a dataset writes is written before the next one is looked at. *)
Theorem worklist_is_accepted_in_input_order
        (raw_zips : list Path) (good : list string) (pkgdir : string) :
  (forall count,
      snd (filter_granules raw_zips good pkgdir) = Ok count ->
      printed (fst (filter_granules raw_zips good pkgdir))
      = map str (filter (accepted good pkgdir) raw_zips))
  /\ (exists n,
         printed (fst (filter_granules raw_zips good pkgdir))
         = map str (filter (accepted good pkgdir) (firstn n raw_zips)))
  /\ (forall ds1 ds2,
         raw_zips = ds1 ++ ds2 ->
         filter_granules raw_zips good pkgdir
         = bind (filter_granules ds1 good pkgdir)
                (fun c => filter_granules_from ds2 good pkgdir c)).
Proof.
  unfold filter_granules.
  destruct (printed_filter_granules_from raw_zips good pkgdir 0) as [H1 H2].
  split; [exact H1|]. split; [exact H2|].
  intros ds1 ds2 ->. apply filter_granules_from_app.
Qed.

End FilterProperties.

(** ** The filter on the sample products *)

(** The spec's short-circuit case: granules of tiles T99ZZZ then T50HMH, with
    only T50HMH in the region of interest. *)
Lemma first_granule_outside_roi_rejects_witness :
  Sample.acquisitions (str Sample.d_two) = Ok tt
  /\ get_archive_metadata Sample.date_parser Sample.fs Sample.d_two
     = Ok [(Some Sample.gid_99ZZZ, "2021-03-01T00:12:00Z");
           (Some Sample.gid_50HMH, "2021-03-01T00:12:00Z")]
  /\ item_neg2 (Str.split "_" Sample.gid_99ZZZ) = Ok "T99ZZZ"
  /\ in_set "T99ZZZ" ["T50HMH"] = false
  /\ printed (fst (filter_granule Sample.date_parser Sample.strftime
                     Sample.fs Sample.acquisitions Sample.nothing_packaged
                     Sample.d_two ["T50HMH"] "/pkg" 0%Z)) = []
  /\ snd (filter_granule Sample.date_parser Sample.strftime
             Sample.fs Sample.acquisitions Sample.nothing_packaged
             Sample.d_two ["T50HMH"] "/pkg" 0%Z) = Ok 0%Z.
Proof.
  assert (Hacq : Sample.acquisitions (str Sample.d_two) = Ok tt)
    by reflexivity.
  assert (Hmd : get_archive_metadata Sample.date_parser Sample.fs Sample.d_two
                = Ok [(Some Sample.gid_99ZZZ, "2021-03-01T00:12:00Z");
                      (Some Sample.gid_50HMH, "2021-03-01T00:12:00Z")])
    by (vm_compute; reflexivity).
  assert (Htile : item_neg2 (Str.split "_" Sample.gid_99ZZZ) = Ok "T99ZZZ")
    by (vm_compute; reflexivity).
  assert (Hout : in_set "T99ZZZ" ["T50HMH"] = false)
    by (vm_compute; reflexivity).
  destruct (@first_granule_outside_roi_rejects
              string Sample.date_parser Sample.strftime Sample.fs
              Sample.acquisitions Sample.nothing_packaged
              Sample.d_two ["T50HMH"] "/pkg" 0%Z
              Sample.gid_99ZZZ "2021-03-01T00:12:00Z"
              [(Some Sample.gid_50HMH, "2021-03-01T00:12:00Z")] "T99ZZZ"
              Hacq Hmd Htile Hout) as [_ [Hp [_ Hr]]].
  repeat split; assumption.
Defined.

(** An archive of two granules, run from a count of 5.  The first granule,
    of tile T55HFA, is in the region of interest and has no package; the
    second, of tile T50HMH, is outside it and has one.  The dataset is
    accepted on the first granule, the count grows by 2 to 7, and the second
    granule is neither looked up in the region nor checked. *)
Lemma accepted_dataset_adds_all_granules_witness :
  Sample.acquisitions (str SampleMore.d_multi) = Ok tt
  /\ get_archive_metadata Sample.date_parser SampleMore.fs SampleMore.d_multi
     = Ok [(Some Sample.gid_55HFA, "2021-03-01T00:12:00Z");
           (Some Sample.gid_50HMH, "2021-03-01T00:12:00Z")]
  /\ item_neg2 (Str.split "_" Sample.gid_55HFA) = Ok "T55HFA"
  /\ in_set "T55HFA" ["T55HFA"] = true
  /\ SampleMore.only_50HMH_packaged (str SampleMore.d_multi) Sample.gid_55HFA
       (os_path_join "/pkg"
          (Sample.strftime "2021-03-01T00:12:00Z" "%Y-%m-%d")) = false
  /\ item_neg2 (Str.split "_" Sample.gid_50HMH) = Ok "T50HMH"
  /\ in_set "T50HMH" ["T55HFA"] = false
  /\ SampleMore.only_50HMH_packaged (str SampleMore.d_multi) Sample.gid_50HMH
       (os_path_join "/pkg"
          (Sample.strftime "2021-03-01T00:12:00Z" "%Y-%m-%d")) = true
  /\ snd (filter_granule Sample.date_parser Sample.strftime SampleMore.fs Sample.acquisitions SampleMore.only_50HMH_packaged
            SampleMore.d_multi ["T55HFA"] "/pkg" 5%Z) = Ok 7%Z
  /\ printed (fst (filter_granule Sample.date_parser Sample.strftime SampleMore.fs Sample.acquisitions SampleMore.only_50HMH_packaged
                     SampleMore.d_multi ["T55HFA"] "/pkg" 5%Z))
     = ["/data/S2A_multi.zip"]
  /\ exists_calls (fst (filter_granule Sample.date_parser Sample.strftime SampleMore.fs Sample.acquisitions SampleMore.only_50HMH_packaged
                          SampleMore.d_multi ["T55HFA"] "/pkg" 5%Z))
     = [("/data/S2A_multi.zip", Sample.gid_55HFA, "/pkg/2021-03-01")].
Proof.
  assert (Hacq : Sample.acquisitions (str SampleMore.d_multi) = Ok tt)
    by reflexivity.
  assert (Hmd : get_archive_metadata Sample.date_parser SampleMore.fs
                                     SampleMore.d_multi
                = Ok [(Some Sample.gid_55HFA, "2021-03-01T00:12:00Z");
                      (Some Sample.gid_50HMH, "2021-03-01T00:12:00Z")])
    by (vm_compute; reflexivity).
  assert (Htile : item_neg2 (Str.split "_" Sample.gid_55HFA) = Ok "T55HFA")
    by (vm_compute; reflexivity).
  assert (Hin : in_set "T55HFA" ["T55HFA"] = true)
    by (vm_compute; reflexivity).
  assert (Hnew : SampleMore.only_50HMH_packaged
                   (str SampleMore.d_multi) Sample.gid_55HFA
                   (os_path_join "/pkg"
                      (Sample.strftime "2021-03-01T00:12:00Z" "%Y-%m-%d"))
                 = false) by (vm_compute; reflexivity).
  destruct (@accepted_dataset_adds_all_granules
              string Sample.date_parser Sample.strftime SampleMore.fs Sample.acquisitions SampleMore.only_50HMH_packaged
              SampleMore.d_multi ["T55HFA"] "/pkg" 5%Z
              Sample.gid_55HFA "2021-03-01T00:12:00Z"
              [(Some Sample.gid_50HMH, "2021-03-01T00:12:00Z")] "T55HFA"
              Hacq Hmd Htile Hin Hnew) as [Hr [Hp Hc]].
  split; [exact Hacq|]. split; [exact Hmd|]. split; [exact Htile|].
  split; [exact Hin|]. split; [exact Hnew|].
  split; [vm_compute; reflexivity|]. split; [vm_compute; reflexivity|].
  split; [vm_compute; reflexivity|].
  split; [exact Hr|]. split; [exact Hp|exact Hc].
Defined.

(** A batch of four datasets, the second with a first granule outside the
    region of interest: the three others are written, in input order. *)
Lemma worklist_is_accepted_in_input_order_witness :
  snd (filter_granules Sample.date_parser Sample.strftime Sample.fs
         Sample.acquisitions Sample.nothing_packaged
         [Sample.d_55HFA; Sample.d_two; Sample.d_50HMH; Sample.d_old]
         ["T55HFA"; "T50HMH"] "/pkg") = Ok 3%Z
  /\ printed (fst (filter_granules Sample.date_parser Sample.strftime
                     Sample.fs Sample.acquisitions Sample.nothing_packaged
                     [Sample.d_55HFA; Sample.d_two; Sample.d_50HMH;
                      Sample.d_old]
                     ["T55HFA"; "T50HMH"] "/pkg"))
     = map str
         (filter (accepted Sample.date_parser Sample.strftime Sample.fs
                    Sample.acquisitions Sample.nothing_packaged
                    ["T55HFA"; "T50HMH"] "/pkg")
                 [Sample.d_55HFA; Sample.d_two; Sample.d_50HMH;
                  Sample.d_old]).
Proof.
  assert (Hret : snd (filter_granules Sample.date_parser Sample.strftime
                        Sample.fs Sample.acquisitions Sample.nothing_packaged
                        [Sample.d_55HFA; Sample.d_two; Sample.d_50HMH;
                         Sample.d_old]
                        ["T55HFA"; "T50HMH"] "/pkg") = Ok 3%Z)
    by (vm_compute; reflexivity).
  split; [exact Hret|].
  exact (proj1 (@worklist_is_accepted_in_input_order
                  string Sample.date_parser Sample.strftime Sample.fs
                  Sample.acquisitions Sample.nothing_packaged
                  [Sample.d_55HFA; Sample.d_two; Sample.d_50HMH; Sample.d_old]
                  ["T55HFA"; "T50HMH"] "/pkg") 3%Z Hret).
Defined.

(** The one existence check made for a dataset whose package exists: the
    dataset is not written. *)
Lemma package_existence_checked_at_most_once_witness :
  exists_calls (fst (filter_granule Sample.date_parser Sample.strftime
                       Sample.fs Sample.acquisitions Sample.all_packaged
                       Sample.d_55HFA ["T55HFA"] "/pkg" 0%Z))
  = [("/data/S2A_55HFA.zip", Sample.gid_55HFA, "/pkg/2021-03-01")]
  /\ printed (fst (filter_granule Sample.date_parser Sample.strftime
                     Sample.fs Sample.acquisitions Sample.all_packaged
                     Sample.d_55HFA ["T55HFA"] "/pkg" 0%Z)) = []
  /\ (length (exists_calls
                (fst (filter_granule Sample.date_parser Sample.strftime
                        Sample.fs Sample.acquisitions Sample.all_packaged
                        Sample.d_55HFA ["T55HFA"] "/pkg" 0%Z))) <= 1)%nat.
Proof.
  split; [vm_compute; reflexivity|]. split; [vm_compute; reflexivity|].
  exact (proj1 (@package_existence_checked_at_most_once
                  string Sample.date_parser Sample.strftime Sample.fs
                  Sample.acquisitions Sample.all_packaged
                  Sample.d_55HFA ["T55HFA"] "/pkg" 0%Z)).
Defined.

(** * Properties of the extractor *)

(** ** Strings and paths *)

Lemma has_slash_app (a b : string) :
  has_slash (a ++ b) = has_slash a || has_slash b.
Proof.
  induction a as [|c a IH]; cbn; [reflexivity|].
  rewrite IH. apply orb_assoc.
Qed.

Lemma has_slash_substring (s : string) :
  forall n m, has_slash s = false -> has_slash (String.substring n m s) = false.
Proof.
  induction s as [|c s IH]; intros n m H.
  - destruct n, m; reflexivity.
  - cbn in H. apply orb_false_iff in H as [Hc Hs].
    destruct n as [|n]; [destruct m as [|m]|]; cbn.
    + reflexivity.
    + rewrite Hc. cbn. apply IH, Hs.
    + apply IH, Hs.
Qed.

Lemma has_slash_replace_from (old new : string) :
  has_slash new = false ->
  forall s skip,
    has_slash s = false -> has_slash (Str.replace_from old new skip s) = false.
Proof.
  intros Hnew. induction s as [|c s IH]; intros skip H; [reflexivity|].
  cbn in H. apply orb_false_iff in H as [Hc Hs].
  cbn [Str.replace_from]. destruct skip as [|k]; [|apply IH, Hs].
  destruct (String.prefix old (String c s)).
  - rewrite has_slash_app, Hnew. cbn. apply IH, Hs.
  - cbn. rewrite Hc. cbn. apply IH, Hs.
Qed.

Lemma split_without_slash (s : string) :
  has_slash s = false -> Str.split "/" s = [s].
Proof.
  induction s as [|c s IH]; intros H; [reflexivity|].
  cbn in H. apply orb_false_iff in H as [Hc Hs].
  cbn [Str.split]. rewrite Hc, (IH Hs). reflexivity.
Qed.

Lemma splitroot_without_slash (s : string) :
  has_slash s = false -> splitroot s = EmptyString.
Proof.
  destruct s as [|c s]; intros H; [reflexivity|].
  cbn in H. apply orb_false_iff in H as [Hc _].
  unfold splitroot.
  assert (E : leading_slashes (String c s) = 0%nat).
  { destruct c as [[] [] [] [] [] [] [] []]; try reflexivity;
      cbn in Hc; discriminate. }
  rewrite E. reflexivity.
Qed.

Lemma components_segment (s : string) :
  path_segment s = true -> components s = [s].
Proof.
  unfold path_segment, components. intros H.
  apply andb_true_iff in H as [H Hdot].
  apply andb_true_iff in H as [Hslash Hempty].
  apply negb_true_iff in Hslash, Hempty, Hdot.
  rewrite (split_without_slash _ Hslash). cbn [filter].
  rewrite Hempty, Hdot. reflexivity.
Qed.

Lemma joinpath_segments (p : Path) (a b c : string) :
  path_segment a = true -> path_segment b = true -> path_segment c = true ->
  joinpath p [a; b; c] = mkPath (root p) (parts p ++ [a; b; c]).
Proof.
  intros Ha Hb Hc.
  assert (R : forall x, path_segment x = true -> splitroot x = EmptyString).
  { intros x Hx. apply splitroot_without_slash.
    unfold path_segment in Hx.
    apply andb_true_iff in Hx as [Hx _]. apply andb_true_iff in Hx as [Hx _].
    apply negb_true_iff, Hx. }
  unfold joinpath, parse_args. cbn [fold_left].
  rewrite (R a Ha). cbn [fst snd app].
  rewrite (R b Hb). cbn [fst snd].
  rewrite (R c Hc). cbn [fst snd].
  rewrite (components_segment _ Ha), (components_segment _ Hb),
    (components_segment _ Hc).
  reflexivity.
Qed.

Lemma metadata_file_segment (g : string) :
  has_slash g = false ->
  path_segment (transformed_id g ++ ".xml") = true.
Proof.
  intros Hg. unfold path_segment.
  assert (Ht : has_slash (transformed_id g) = false).
  { unfold transformed_id. change (Str.replace "MSI" "MTD") with
      (Str.replace_from "MSI" "MTD" 0).
    apply has_slash_replace_from; [reflexivity|].
    apply has_slash_substring, Hg. }
  rewrite has_slash_app, Ht.
  destruct (transformed_id g) as [|c [|c' t]]; cbn;
    try destruct (Ascii.eqb c "."); reflexivity.
Qed.

Lemma gran_path_layout (p : Path) (g : string) :
  path_segment g = true ->
  gran_path p (Some g) = Ok (str (granule_layout (parent p) g)).
Proof.
  intros Hg. unfold gran_path, granule_layout.
  fold (transformed_id g).
  rewrite joinpath_segments; [reflexivity|reflexivity|exact Hg|].
  apply metadata_file_segment.
  unfold path_segment in Hg.
  apply andb_true_iff in Hg as [Hg _]. apply andb_true_iff in Hg as [Hg _].
  apply negb_true_iff, Hg.
Qed.

(** [basename] and [replace] commute when the replaced string has no
    slash. *)
Lemma split_nonempty (sep : ascii) (s : string) : Str.split sep s <> [].
Proof.
  induction s as [|c s IH]; cbn; [discriminate|].
  destruct (Ascii.eqb c sep); [discriminate|].
  destruct (Str.split sep s); [contradiction IH; reflexivity|discriminate].
Qed.

Lemma split_with_slash (s : string) :
  has_slash s = true -> exists w w' ws, Str.split "/" s = w :: w' :: ws.
Proof.
  induction s as [|c s IH]; intros H; [discriminate|].
  cbn in H. cbn [Str.split].
  destruct (Ascii.eqb c "/") eqn:Hc.
  - destruct (Str.split "/" s) as [|w ws] eqn:E;
      [contradiction (split_nonempty "/" s)|].
    exists EmptyString, w, ws. reflexivity.
  - cbn in H. destruct (IH H) as (w & w' & ws & E). rewrite E.
    exists (String c w), w', ws. reflexivity.
Qed.

Lemma basename_slash (s : string) : basename (String "/" s) = basename s.
Proof.
  unfold basename. cbn [Str.split]. change (Ascii.eqb "/" "/") with true.
  cbv iota.
  destruct (Str.split "/" s) as [|w ws] eqn:E;
    [contradiction (split_nonempty "/" s)|reflexivity].
Qed.

Lemma basename_other (c : ascii) (s : string) :
  Ascii.eqb c "/" = false ->
  basename (String c s) = if has_slash s then basename s else String c s.
Proof.
  intros Hc. unfold basename. cbn [Str.split]. rewrite Hc.
  destruct (has_slash s) eqn:Hs.
  - destruct (split_with_slash s Hs) as (w & w' & ws & E). rewrite E.
    reflexivity.
  - rewrite (split_without_slash s Hs). reflexivity.
Qed.

Lemma basename_app (y t : string) :
  has_slash y = false ->
  basename (y ++ t) = if has_slash t then basename t else (y ++ t)%string.
Proof.
  induction y as [|c y IH]; intros Hy.
  - cbn. destruct (has_slash t) eqn:Ht; [reflexivity|].
    unfold basename. rewrite (split_without_slash t Ht). reflexivity.
  - cbn in Hy. apply orb_false_iff in Hy as [Hc Hy].
    cbn [String.append]. rewrite (basename_other c (y ++ t) Hc).
    rewrite has_slash_app, Hy. cbn [orb]. rewrite (IH Hy).
    destruct (has_slash t); reflexivity.
Qed.

Lemma basename_without_slash (s : string) :
  has_slash s = false -> basename s = s.
Proof.
  intros H. unfold basename. rewrite (split_without_slash s H). reflexivity.
Qed.

Lemma prefix_cons (x c : ascii) (X s : string) :
  String.prefix (String x X) (String c s) = true ->
  c = x /\ String.substring 0 (String.length X) s = X.
Proof.
  intros H. apply String.prefix_correct in H. cbn in H.
  injection H as -> H. split; [reflexivity|exact H].
Qed.

Lemma replace_from_basename (x : ascii) (X Y : string) :
  has_slash (String x X) = false -> has_slash Y = false ->
  forall s k,
    has_slash (String.substring 0 k s) = false ->
    has_slash (Str.replace_from (String x X) Y k s) = has_slash s
    /\ basename (Str.replace_from (String x X) Y k s)
       = Str.replace_from (String x X) Y (if has_slash s then 0 else k)
                          (basename s).
Proof.
  intros HX HY.
  pose proof HX as HX0. cbn in HX0. apply orb_false_iff in HX0 as [Hx HX'].
  induction s as [|c s IH]; intros k Hk.
  - split; [reflexivity|]. destruct k; reflexivity.
  - cbn [Str.replace_from]. destruct k as [|k].
    + destruct (String.prefix (String x X) (String c s)) eqn:Hpre.
      * destruct (prefix_cons x c X s Hpre) as [-> Hsub].
        assert (Hskip : has_slash
                          (String.substring
                             0 (String.length (String x X) - 1) s) = false).
        { cbn [String.length]. rewrite Nat.sub_succ, Nat.sub_0_r.
          rewrite Hsub. exact HX'. }
        destruct (IH _ Hskip) as [IHs IHb]. split.
        -- rewrite has_slash_app, HY, IHs. cbn. rewrite Hx. reflexivity.
        -- rewrite (basename_app Y _ HY), IHs, IHb.
           rewrite (basename_other x s Hx). cbn [has_slash]. rewrite Hx.
           cbn [orb].
           destruct (has_slash s) eqn:Hs; [reflexivity|].
           cbn [Str.replace_from]. rewrite Hpre. reflexivity.
      * assert (H0 : has_slash (String.substring 0 0 s) = false)
          by (destruct s; reflexivity).
        destruct (IH 0 H0) as [IHs IHb]. split.
        -- cbn [has_slash]. rewrite IHs. reflexivity.
        -- cbn [has_slash]. destruct (Ascii.eqb c "/") eqn:Hc.
           ++ apply Ascii.eqb_eq in Hc. subst c. cbn [orb].
              rewrite !basename_slash, IHb.
              destruct (has_slash s); reflexivity.
           ++ cbn [orb]. rewrite !(basename_other c _ Hc), IHs, IHb.
              destruct (has_slash s) eqn:Hs; [reflexivity|].
              cbn [Str.replace_from]. rewrite Hpre. reflexivity.
    + cbn [String.substring has_slash] in Hk.
      apply orb_false_iff in Hk as [Hc Hk].
      destruct (IH k Hk) as [IHs IHb]. split.
      * cbn [has_slash]. rewrite Hc. exact IHs.
      * cbn [has_slash]. rewrite Hc. cbn [orb].
        rewrite (basename_other c s Hc), IHb.
        destruct (has_slash s) eqn:Hs; [reflexivity|].
        rewrite (basename_without_slash s Hs). reflexivity.
Qed.

Lemma replace_basename (x : ascii) (X Y s : string) :
  has_slash (String x X) = false -> has_slash Y = false ->
  basename (Str.replace (String x X) Y s)
  = Str.replace (String x X) Y (basename s).
Proof.
  intros HX HY.
  change (Str.replace (String x X) Y) with (Str.replace_from (String x X) Y 0).
  assert (H0 : has_slash (String.substring 0 0 s) = false)
    by (destruct s; reflexivity).
  destruct (replace_from_basename x X Y HX HY s 0 H0) as [_ Hb].
  rewrite Hb. destruct (has_slash s); reflexivity.
Qed.

(** ** Documents *)

Section AtDepth.

Variable f : Element -> Element.
Hypothesis f_tag : forall e, tag (f e) = tag e.
Hypothesis f_text : forall e, text (f e) = text e.

Lemma tag_at_depth (n : nat) (e : Element) : tag (at_depth n f e) = tag e.
Proof. destruct n, e; cbn; [apply f_tag|reflexivity]. Qed.

Lemma text_at_depth (n : nat) (e : Element) : text (at_depth n f e) = text e.
Proof. destruct n, e; cbn; [apply f_text|reflexivity]. Qed.

Lemma children_at_depth (n : nat) (e : Element) :
  children (at_depth (S n) f e) = map (at_depth n f) (children e).
Proof. destruct e; reflexivity. Qed.

Lemma filter_tag_at_depth (n : nat) (t : string) (cs : list Element) :
  filter (fun c => String.eqb (tag c) t) (map (at_depth n f) cs)
  = map (at_depth n f) (filter (fun c => String.eqb (tag c) t) cs).
Proof.
  induction cs as [|c cs IH]; [reflexivity|].
  cbn [map filter]. rewrite tag_at_depth, IH.
  destruct (String.eqb (tag c) t); reflexivity.
Qed.

Lemma select_at_depth (st : step) (n : nat) (context : list Element) :
  st <> Self ->
  select st (map (at_depth (S n) f) context)
  = map (at_depth n f) (select st context).
Proof.
  intros Hst. destruct st as [| |t]; [contradiction Hst; reflexivity| |].
  - induction context as [|e context IH]; [reflexivity|].
    cbn [select map flat_map] in *.
    rewrite children_at_depth, IH, map_app. reflexivity.
  - induction context as [|e context IH]; [reflexivity|].
    cbn [select map flat_map] in *.
    rewrite children_at_depth, filter_tag_at_depth, IH, map_app.
    reflexivity.
Qed.

Lemma find_steps_at_depth (steps : list step) :
  forall n context,
    levels steps <= n ->
    find_steps steps (map (at_depth n f) context)
    = map (at_depth (n - levels steps) f) (find_steps steps context).
Proof.
  induction steps as [|st steps IH]; intros n context Hle.
  - cbn. rewrite Nat.sub_0_r. reflexivity.
  - destruct st as [| |t].
    + cbn [levels] in *. apply (IH n context Hle).
    + cbn [levels] in *. destruct n as [|n]; [lia|].
      change (find_steps (Star :: steps) ?c)
        with (find_steps steps (select Star c)).
      rewrite select_at_depth by discriminate.
      rewrite IH by lia. reflexivity.
    + cbn [levels] in *. destruct n as [|n]; [lia|].
      change (find_steps (Child t :: steps) ?c)
        with (find_steps steps (select (Child t) c)).
      rewrite select_at_depth by discriminate.
      rewrite IH by lia. reflexivity.
Qed.

End AtDepth.

Lemma findall_erase (path : string) (doc : Element) :
  levels (parse_path path) <= 5 ->
  findall path (erase_image_ids doc)
  = map (at_depth (5 - levels (parse_path path)) drop_image_children)
        (findall path doc).
Proof.
  intros Hle. unfold findall, erase_image_ids.
  apply (@find_steps_at_depth drop_image_children (fun e => eq_refl)
           (parse_path path) 5 [doc] Hle).
Qed.

Lemma granule_elements_erase (doc : Element) :
  granule_elements (erase_image_ids doc)
  = map drop_image_children (granule_elements doc).
Proof.
  unfold granule_elements. cbv zeta.
  rewrite !findall_erase by (vm_compute; lia).
  destruct (findall _ doc) as [|g gs]; reflexivity.
Qed.

Lemma namelist_erase (a : archive) : namelist (map erase_member a) = namelist a.
Proof.
  unfold namelist. rewrite map_map. apply map_ext. intros [k v]. reflexivity.
Qed.

Lemma read_member_erase (a : archive) (n : string) :
  read_member (map erase_member a) n
  = option_map (option_map erase_image_ids) (read_member a n).
Proof.
  induction a as [|[k v] a IH]; [reflexivity|].
  cbn [map read_member erase_member fst snd]. rewrite IH.
  destruct (read_member a n); cbn [option_map]; [reflexivity|].
  destruct (String.eqb k n); reflexivity.
Qed.

Lemma XML_of_member_erase (a : archive) (n : string) :
  XML_of_member (map erase_member a) n
  = result_map erase_image_ids (XML_of_member a n).
Proof.
  unfold XML_of_member. rewrite read_member_erase.
  destruct (read_member a n) as [[e|]|]; reflexivity.
Qed.

Lemma granule_root_erase (fs : filesystem) (p : Path) (a : archive)
      (pb : option string) (gran_id : pykey) :
  granule_root (erase_fs fs) p (map erase_member a) pb gran_id
  = result_map erase_image_ids (granule_root fs p a pb gran_id).
Proof.
  unfold granule_root.
  destruct (negb (suffix p =? ".zip")%string).
  - destruct (gran_path p gran_id) as [path|e]; [|reflexivity].
    cbn [rbind]. unfold ElementTree_parse, erase_fs.
    destruct (fs path); reflexivity.
  - assert (E : granule_xmlzipfiles (map erase_member a) pb gran_id
                = granule_xmlzipfiles a pb gran_id).
    { unfold granule_xmlzipfiles. rewrite namelist_erase. reflexivity. }
    rewrite E.
    destruct (granule_xmlzipfiles a pb gran_id) as [l|e]; [|reflexivity].
    cbn [rbind]. destruct (first_item l) as [member|e]; [|reflexivity].
    cbn [rbind]. apply XML_of_member_erase.
Qed.

(** ** The extractor *)

Section ExtractorProperties.

Variable datetime : Type.
Variable date_parser : option string -> result datetime.

Local Abbreviation get_archive_metadata := (get_archive_metadata date_parser).
Local Abbreviation metadata_of_root := (metadata_of_root date_parser).
Local Abbreviation for_granules := (for_granules date_parser).

Lemma dict_set_nonempty {V} (k : pykey) (v : V) (d : dict V) :
  dict_set k v d <> [].
Proof.
  destruct d as [|[k' v'] rest]; cbn; [discriminate|].
  destruct (pykey_eqb k' k); discriminate.
Qed.

Lemma for_granules_nonempty (fs : filesystem) (p : Path) (a : archive)
      (pb : option string) (grn_elements : list Element) :
  forall results md,
    for_granules fs p a pb grn_elements results = Ok md ->
    grn_elements <> [] \/ results <> [] ->
    md <> [].
Proof.
  induction grn_elements as [|granule rest IH]; intros results md Hrun Hne.
  - cbn in Hrun. injection Hrun as <-. destruct Hne as [H|H]; [|exact H].
    contradiction H. reflexivity.
  - cbn [for_granules] in Hrun. cbv zeta in Hrun.
    destruct (granule_root fs p a pb _) as [root|e]; [|discriminate].
    cbn [rbind] in Hrun.
    destruct (first_item (findall "./*/SENSING_TIME" root)) as [sensing|e];
      [|discriminate].
    cbn [rbind] in Hrun.
    destruct (date_parser (text sensing)) as [parsed|e]; [|discriminate].
    cbn [rbind] in Hrun.
    apply (IH _ _ Hrun). right. apply dict_set_nonempty.
Qed.

(** The extractor looks at the file system at the reference and at the
    paths of the granule documents, nowhere else. *)
Lemma granule_root_agree (fs1 fs2 : filesystem) (p : Path) (a : archive)
      (pb : option string) (gran_id : pykey) :
  (forall g path, gran_path p (Some g) = Ok path -> fs1 path = fs2 path) ->
  granule_root fs1 p a pb gran_id = granule_root fs2 p a pb gran_id.
Proof.
  intros H. unfold granule_root.
  destruct (negb (suffix p =? ".zip")%string); [|reflexivity].
  destruct gran_id as [g|]; [|reflexivity].
  destruct (gran_path p (Some g)) as [path|e] eqn:E; [|reflexivity].
  cbn [rbind]. unfold ElementTree_parse. rewrite (H g path E). reflexivity.
Qed.

Lemma for_granules_agree (fs1 fs2 : filesystem) (p : Path) (a : archive)
      (pb : option string) (grn_elements : list Element) :
  (forall g path, gran_path p (Some g) = Ok path -> fs1 path = fs2 path) ->
  forall results,
    for_granules fs1 p a pb grn_elements results
    = for_granules fs2 p a pb grn_elements results.
Proof.
  intros H. induction grn_elements as [|granule rest IH]; intros results;
    [reflexivity|].
  cbn [for_granules]. cbv zeta.
  rewrite (@granule_root_agree fs1 fs2 p a pb _ H).
  destruct (granule_root fs2 p a pb _) as [root|e]; [|reflexivity].
  cbn [rbind].
  destruct (first_item (findall "./*/SENSING_TIME" root)) as [sensing|e];
    [|reflexivity].
  cbn [rbind].
  destruct (date_parser (text sensing)) as [parsed|e]; [|reflexivity].
  cbn [rbind]. apply IH.
Qed.

Lemma get_archive_metadata_agree (fs1 fs2 : filesystem) (p : Path) :
  fs1 (str p) = fs2 (str p) ->
  (forall g path, gran_path p (Some g) = Ok path -> fs1 path = fs2 path) ->
  get_archive_metadata fs1 p = get_archive_metadata fs2 p.
Proof.
  intros Hp H. unfold get_archive_metadata, ZipFile. rewrite Hp.
  destruct (fs2 (str p)) as [| |a|e|]; try reflexivity.
  cbn [rbind]. cbv zeta.
  destruct (first_item (product_xmlfiles p a)) as [member|e];
    [|reflexivity].
  cbn [rbind].
  destruct (XML_of_member a member) as [xml_root|e]; [|reflexivity].
  cbn [rbind]. unfold metadata_of_root. cbv zeta.
  destruct (first_item (granule_elements xml_root)); [|reflexivity].
  cbn [rbind].
  destruct (first_item (findall _ xml_root)); [|reflexivity].
  cbn [rbind]. apply for_granules_agree, H.
Qed.

(** C6. In an archive none of whose member names holds
    [MTD_MSIL1C.xml], the product metadata is the first member whose name
    holds the pattern made from the reference: [PRD_MSIL1C] replaced by
    [MTD_SAFL1C], the base name taken, [.zip] replaced by [.xml].  The
    pattern is the one made from the base name of the reference by the two
    replacements.  From the member on, the extraction is the one that
    follows a direct match: the first conjunct is the direct match, the
    second the match of the pattern, and both lead to the same mapping from
    granule identifiers to sensing times, computed from the chosen member. *)
Theorem fallback_pattern_finds_product_metadata
        (fs : filesystem) (p : Path) (a : archive) :
  ZipFile fs (str p) = Ok a ->
  (forall member others,
      filter (Str.contains "MTD_MSIL1C.xml") (namelist a) = member :: others ->
      get_archive_metadata fs p
      = rbind (XML_of_member a member) (metadata_of_root fs p a))
  /\ (forall member others,
         filter (Str.contains "MTD_MSIL1C.xml") (namelist a) = [] ->
         filter (Str.contains
                   (Str.replace ".zip" ".xml"
                      (basename
                         (Str.replace "PRD_MSIL1C" "MTD_SAFL1C" (str p)))))
                (namelist a) = member :: others ->
         get_archive_metadata fs p
         = rbind (XML_of_member a member) (metadata_of_root fs p a))
  /\ Str.replace ".zip" ".xml"
       (basename (Str.replace "PRD_MSIL1C" "MTD_SAFL1C" (str p)))
     = Str.replace ".zip" ".xml"
         (Str.replace "PRD_MSIL1C" "MTD_SAFL1C" (basename (str p))).
Proof.
  intros Hzip. split; [|split].
  - intros member others Hdirect.
    unfold get_archive_metadata. rewrite Hzip. cbn [rbind]. cbv zeta.
    unfold product_xmlfiles. cbv zeta. rewrite Hdirect. reflexivity.
  - intros member others Hnone Hpattern.
    unfold get_archive_metadata. rewrite Hzip. cbn [rbind]. cbv zeta.
    unfold product_xmlfiles. cbv zeta. rewrite Hnone, Hpattern. reflexivity.
  - rewrite replace_basename by reflexivity. reflexivity.
Qed.

(** Line 73: for a reference whose suffix is not [.zip], the document of a
    granule whose identifier is one path component is the file
    [GRANULE/<granule_id>/<transformed_id>.xml] under the parent directory of
    the reference, the transformed identifier being the identifier without
    its last seven characters and with [MTD] for [MSI]. *)
Lemma granule_root_beside_reference
        (fs : filesystem) (p : Path) (a : archive) (pb : option string)
        (g : string) :
  String.eqb (suffix p) ".zip" = false ->
  path_segment g = true ->
  granule_root fs p a pb (Some g)
  = ElementTree_parse fs (str (granule_layout (parent p) g))
  /\ str (granule_layout (parent p) g)
     = (root p
        ++ String.concat "/"
             (removelast (parts p)
              ++ ["GRANULE"; g;
                  Str.replace "MSI" "MTD" (Str.drop_last 7 g) ++ ".xml"]))%string.
Proof.
  intros Hsuffix Hg. split.
  - unfold granule_root. rewrite Hsuffix. cbn [negb].
    rewrite (gran_path_layout p g Hg). reflexivity.
  - assert (Hparent : parent p = mkPath (root p) (removelast (parts p))).
    { destruct p as [r [|x ps]]; reflexivity. }
    rewrite Hparent. unfold granule_layout, str, transformed_id.
    cbn [root parts].
    destruct (root p); [|reflexivity].
    destruct (removelast (parts p)); reflexivity.
Qed.

(** C8 (amended). A mapping returned by the extractor is not empty.  When the
    search for [.../Granule_List/Granules] finds nothing, the granule
    elements are those found by the search term without its last character,
    [.../Granule_List/Granule]; when that finds nothing either, the
    extraction raises. *)
Theorem extracted_mapping_is_not_empty (fs : filesystem) (p : Path) :
  (forall md, get_archive_metadata fs p = Ok md -> md <> [])
  /\ (forall xml_root,
         findall "./*/Product_Info/Product_Organisation/Granule_List/Granules"
                 xml_root = [] ->
         granule_elements xml_root
         = findall "./*/Product_Info/Product_Organisation/Granule_List/Granule"
                   xml_root)
  /\ (forall a xml_root,
         granule_elements xml_root = [] ->
         metadata_of_root fs p a xml_root = Raise IndexError).
Proof.
  split; [|split].
  - intros md Hrun. unfold get_archive_metadata in Hrun.
    destruct (ZipFile fs (str p)) as [a|e]; [|discriminate].
    cbn [rbind] in Hrun. cbv zeta in Hrun.
    destruct (first_item (product_xmlfiles p a)) as [member|e];
      [|discriminate].
    cbn [rbind] in Hrun.
    destruct (XML_of_member a member) as [xml_root|e]; [|discriminate].
    cbn [rbind] in Hrun. unfold metadata_of_root in Hrun. cbv zeta in Hrun.
    destruct (granule_elements xml_root) as [|first rest] eqn:Hgr;
      [discriminate|].
    cbn [first_item rbind] in Hrun.
    destruct (first_item (findall _ xml_root)); [|discriminate].
    cbn [rbind] in Hrun.
    eapply for_granules_nonempty; [exact Hrun|]. left. discriminate.
  - intros xml_root Hnone. unfold granule_elements. cbv zeta.
    rewrite Hnone. reflexivity.
  - intros a xml_root Hnone. unfold metadata_of_root. cbv zeta.
    rewrite Hnone. reflexivity.
Qed.

Lemma for_granules_erase (fs : filesystem) (p : Path) (a : archive)
      (pb : option string) (grn_elements : list Element) :
  forall results,
    for_granules (erase_fs fs) p (map erase_member a) pb
                 (map drop_image_children grn_elements) results
    = for_granules fs p a pb grn_elements results.
Proof.
  induction grn_elements as [|granule rest IH]; intros results;
    [reflexivity|].
  cbn [map for_granules]. cbv zeta.
  change (attrib (drop_image_children granule)) with (attrib granule).
  rewrite granule_root_erase.
  destruct (granule_root fs p a pb _) as [root|e]; [|reflexivity].
  cbn [result_map rbind].
  rewrite findall_erase by (vm_compute; lia).
  destruct (findall "./*/SENSING_TIME" root) as [|sensing others];
    [reflexivity|].
  cbn [map first_item rbind].
  rewrite text_at_depth by reflexivity.
  destruct (date_parser (text sensing)) as [parsed|e]; [|reflexivity].
  cbn [rbind]. apply IH.
Qed.

Lemma metadata_of_root_erase (fs : filesystem) (p : Path) (a : archive)
      (doc : Element) :
  metadata_of_root (erase_fs fs) p (map erase_member a) (erase_image_ids doc)
  = metadata_of_root fs p a doc.
Proof.
  unfold metadata_of_root. cbv zeta.
  rewrite granule_elements_erase.
  destruct (granule_elements doc) as [|first rest]; [reflexivity|].
  cbn [map first_item rbind].
  rewrite findall_erase by (vm_compute; lia).
  destruct (findall "./*/Product_Info/PROCESSING_BASELINE" doc)
    as [|baseline others]; [reflexivity|].
  cbn [map first_item rbind].
  rewrite text_at_depth by reflexivity.
  apply (for_granules_erase fs p a (text baseline) (first :: rest)).
Qed.

Lemma get_archive_metadata_erase (fs : filesystem) (p : Path) :
  get_archive_metadata (erase_fs fs) p = get_archive_metadata fs p.
Proof.
  unfold get_archive_metadata.
  assert (E : ZipFile (erase_fs fs) (str p)
              = result_map (map erase_member) (ZipFile fs (str p))).
  { unfold ZipFile, erase_fs. destruct (fs (str p)); reflexivity. }
  rewrite E. destruct (ZipFile fs (str p)) as [a|e]; [|reflexivity].
  cbn [result_map rbind]. cbv zeta.
  assert (F : product_xmlfiles p (map erase_member a) = product_xmlfiles p a).
  { unfold product_xmlfiles. rewrite namelist_erase. reflexivity. }
  rewrite F.
  destruct (first_item (product_xmlfiles p a)) as [member|e]; [|reflexivity].
  cbn [rbind]. rewrite XML_of_member_erase.
  destruct (XML_of_member a member) as [xml_root|e]; [|reflexivity].
  cbn [result_map rbind]. apply metadata_of_root_erase.
Qed.

(** C9. The extractor returns the same result, a mapping or an exception, on
    two file systems whose documents differ only in the [IMAGE_ID] and
    [IMAGE_FILE] children of the granule elements: which of the two tags is
    there, how many, and what they hold. *)
Theorem image_identity_tags_do_not_matter
        (fs1 fs2 : filesystem) (p : Path) :
  (forall path, erase_fs fs1 path = erase_fs fs2 path) ->
  get_archive_metadata fs1 p = get_archive_metadata fs2 p.
Proof.
  intros H.
  rewrite <- (get_archive_metadata_erase fs1 p),
          <- (get_archive_metadata_erase fs2 p).
  apply get_archive_metadata_agree; intros; apply H.
Qed.

End ExtractorProperties.

(** ** The extractor on the sample products *)

(** An archive of the earlier naming scheme: no member name holds
    [MTD_MSIL1C.xml], the pattern made from the archive's name finds the
    product metadata, and the mapping is extracted. *)
Lemma fallback_pattern_finds_product_metadata_witness :
  ZipFile Sample.fs (str Sample.d_old) = Ok Sample.zip_old
  /\ filter (Str.contains "MTD_MSIL1C.xml") (namelist Sample.zip_old) = []
  /\ Str.replace ".zip" ".xml"
       (basename (Str.replace "PRD_MSIL1C" "MTD_SAFL1C" (str Sample.d_old)))
     = "S2A_OPER_MTD_SAFL1C_PDMC_R030.xml"
  /\ get_archive_metadata Sample.date_parser Sample.fs Sample.d_old
     = rbind (XML_of_member Sample.zip_old
                "S2A_OPER_PRD_MSIL1C_PDMC_R030.SAFE/S2A_OPER_MTD_SAFL1C_PDMC_R030.xml")
             (metadata_of_root Sample.date_parser Sample.fs Sample.d_old
                               Sample.zip_old)
  /\ get_archive_metadata Sample.date_parser Sample.fs Sample.d_old
     = Ok [(Some Sample.gid_old, "2016-01-01T00:12:00Z")].
Proof.
  assert (Hzip : ZipFile Sample.fs (str Sample.d_old) = Ok Sample.zip_old)
    by (vm_compute; reflexivity).
  assert (Hnone : filter (Str.contains "MTD_MSIL1C.xml")
                         (namelist Sample.zip_old) = [])
    by (vm_compute; reflexivity).
  assert (Hpat : filter
                   (Str.contains
                      (Str.replace ".zip" ".xml"
                         (basename
                            (Str.replace "PRD_MSIL1C" "MTD_SAFL1C"
                                         (str Sample.d_old)))))
                   (namelist Sample.zip_old)
                 = ["S2A_OPER_PRD_MSIL1C_PDMC_R030.SAFE/S2A_OPER_MTD_SAFL1C_PDMC_R030.xml"])
    by (vm_compute; reflexivity).
  pose proof (proj1 (proj2 (@fallback_pattern_finds_product_metadata
                              string Sample.date_parser Sample.fs Sample.d_old
                              Sample.zip_old Hzip)) _ _ Hnone Hpat) as Hrun.
  repeat split; try assumption; vm_compute; reflexivity.
Defined.

(** C7. The code does not do what the claim says.  [/data/S2A_DIR.SAFE] is
    a directory holding the product metadata at a fixed place and the
    granule's document in the layout
    [GRANULE/<granule_id>/<transformed_id>.xml] under it.  The extractor
    opens the reference as a zip archive first (line 42) and raises
    [IsADirectoryError] without reading either document; it does so on every
    directory, so the branch for the references that are not [.zip] (lines
    72-74) is never reached for one. *)
Theorem directory_reference_is_not_extracted :
  Sample.fs (str Sample.d_dir) = Directory
  /\ Sample.fs "/data/S2A_DIR.SAFE/MTD_MSIL1C.xml"
     = XmlFile (Sample.product_doc "02.09"
                  [Sample.new_granule Sample.gid_55HFA])
  /\ Sample.fs (str (granule_layout Sample.d_dir Sample.gid_55HFA))
     = XmlFile (Sample.tile_doc "2021-03-01T00:12:00Z")
  /\ get_archive_metadata Sample.date_parser Sample.fs Sample.d_dir
     = Raise IsADirectoryError
  /\ forall (fs : filesystem) (p : Path),
      fs (str p) = Directory ->
      get_archive_metadata Sample.date_parser fs p = Raise IsADirectoryError.
Proof.
  split; [vm_compute; reflexivity|]. split; [vm_compute; reflexivity|].
  split; [vm_compute; reflexivity|]. split; [vm_compute; reflexivity|].
  intros fs p Hdir. unfold get_archive_metadata, ZipFile.
  rewrite Hdir. reflexivity.
Qed.

(** A product of the later scheme: the first search finds nothing, the
    [Granule] elements are found, and the mapping has one item. *)
Lemma extracted_mapping_is_not_empty_witness :
  get_archive_metadata Sample.date_parser Sample.fs Sample.d_55HFA
  = Ok [(Some Sample.gid_55HFA, "2021-03-01T00:12:00Z")]
  /\ findall "./*/Product_Info/Product_Organisation/Granule_List/Granules"
             (Sample.product_doc "02.09"
                [Sample.new_granule Sample.gid_55HFA]) = []
  /\ [(Some Sample.gid_55HFA, "2021-03-01T00:12:00Z")]
     <> ([] : dict string)
  /\ granule_elements (Sample.product_doc "02.09"
                         [Sample.new_granule Sample.gid_55HFA])
     = [Sample.new_granule Sample.gid_55HFA].
Proof.
  assert (Hrun : get_archive_metadata Sample.date_parser Sample.fs
                                      Sample.d_55HFA
                 = Ok [(Some Sample.gid_55HFA, "2021-03-01T00:12:00Z")])
    by (vm_compute; reflexivity).
  assert (Hnone :
            findall "./*/Product_Info/Product_Organisation/Granule_List/Granules"
                    (Sample.product_doc "02.09"
                       [Sample.new_granule Sample.gid_55HFA]) = [])
    by (vm_compute; reflexivity).
  destruct (@extracted_mapping_is_not_empty
              string Sample.date_parser Sample.fs Sample.d_55HFA)
    as [Hne [Htier _]].
  split; [exact Hrun|]. split; [exact Hnone|].
  split; [exact (Hne _ Hrun)|].
  rewrite (Htier _ Hnone). vm_compute. reflexivity.
Defined.

(** Counterexample to C8 as stated.  The search path without its
    last segment is [.../Granule_List]; in [list_node_doc] it finds the list
    element, which carries a granule identifier.  The extractor searches
    [.../Granule_List/Granule] instead, finds no granule element and
    raises. *)
Lemma second_search_is_not_the_shorter_path :
  minus_final_segment
    "./*/Product_Info/Product_Organisation/Granule_List/Granules"
  = "./*/Product_Info/Product_Organisation/Granule_List"
  /\ Str.drop_last 1
       "./*/Product_Info/Product_Organisation/Granule_List/Granules"
     = "./*/Product_Info/Product_Organisation/Granule_List/Granule"
  /\ findall (minus_final_segment
                "./*/Product_Info/Product_Organisation/Granule_List/Granules")
             Sample.list_node_doc
     = [mkElement "Granule_List" [("granuleIdentifier", Sample.gid_55HFA)]
                  None []]
  /\ granule_elements Sample.list_node_doc = []
  /\ XML_of_member Sample.zip_list_node "S2A_MSIL1C.SAFE/MTD_MSIL1C.xml"
     = Ok Sample.list_node_doc
  /\ get_archive_metadata Sample.date_parser Sample.fs Sample.d_list_node
     = Raise IndexError.
Proof. repeat split; vm_compute; reflexivity. Qed.

(** Two file systems that differ in the product metadata of one archive:
    [IMAGE_FILE] children in one, [IMAGE_ID] children of other contents in
    the other. *)
Lemma image_identity_tags_do_not_matter_witness :
  (forall path, erase_fs Sample.fs path = erase_fs Sample.fs_other path)
  /\ Sample.fs (str Sample.d_55HFA) <> Sample.fs_other (str Sample.d_55HFA)
  /\ get_archive_metadata Sample.date_parser Sample.fs Sample.d_55HFA
     = get_archive_metadata Sample.date_parser Sample.fs_other Sample.d_55HFA.
Proof.
  assert (H : forall path,
             erase_fs Sample.fs path = erase_fs Sample.fs_other path).
  { intros path. unfold erase_fs, Sample.fs_other.
    destruct (String.eqb path "/data/S2A_55HFA.zip") eqn:E; [|reflexivity].
    apply String.eqb_eq in E. subst path. vm_compute. reflexivity. }
  split; [exact H|]. split; [vm_compute; discriminate|].
  exact (@image_identity_tags_do_not_matter
           string Sample.date_parser Sample.fs Sample.fs_other
           Sample.d_55HFA H).
Defined.

(** ** A batch with an archive the extractor fails on *)

(** C1. The code does not do what the claim says.  In a batch of three
    datasets that all pass [acquisitions], the second archive has no member
    for the product metadata: [get_archive_metadata] raises [IndexError],
    and the exception leaves [filter_granules].  No warning is logged, the
    first dataset has been written, and the third, which is accepted when
    run alone, is never looked at. *)
Theorem extractor_failure_leaves_the_filter :
  Sample.acquisitions (str Sample.d_bare) = Ok tt
  /\ get_archive_metadata Sample.date_parser Sample.fs Sample.d_bare
     = Raise IndexError
  /\ snd (filter_granules Sample.date_parser Sample.strftime Sample.fs
             Sample.acquisitions Sample.nothing_packaged
             [Sample.d_55HFA; Sample.d_bare; Sample.d_50HMH]
             ["T55HFA"; "T50HMH"] "/pkg") = Raise IndexError
  /\ printed (fst (filter_granules Sample.date_parser Sample.strftime
                     Sample.fs Sample.acquisitions Sample.nothing_packaged
                     [Sample.d_55HFA; Sample.d_bare; Sample.d_50HMH]
                     ["T55HFA"; "T50HMH"] "/pkg"))
     = ["/data/S2A_55HFA.zip"]
  /\ warnings (fst (filter_granules Sample.date_parser Sample.strftime
                      Sample.fs Sample.acquisitions Sample.nothing_packaged
                      [Sample.d_55HFA; Sample.d_bare; Sample.d_50HMH]
                      ["T55HFA"; "T50HMH"] "/pkg")) = []
  /\ printed (fst (filter_granule Sample.date_parser Sample.strftime
                     Sample.fs Sample.acquisitions Sample.nothing_packaged
                     Sample.d_50HMH ["T55HFA"; "T50HMH"] "/pkg" 1%Z))
     = ["/data/S2A_50HMH.zip"].
Proof. repeat split; vm_compute; reflexivity. Qed.

(** * Further properties of the filter *)

Section BatchProperties.

Variable datetime : Type.
Variable date_parser : option string -> result datetime.
Variable strftime : datetime -> string -> string.
Variable fs : filesystem.
Variable acquisitions : string -> result unit.
Variable package_output_exists : string -> string -> string -> bool.

Local Abbreviation filter_granule :=
  (filter_granule date_parser strftime fs acquisitions package_output_exists).
Local Abbreviation filter_granules_from :=
  (filter_granules_from date_parser strftime fs acquisitions
                        package_output_exists).
Local Abbreviation filter_granules :=
  (filter_granules date_parser strftime fs acquisitions package_output_exists).
Local Abbreviation decide :=
  (decide date_parser strftime fs acquisitions package_output_exists).
Local Abbreviation accepted :=
  (accepted date_parser strftime fs acquisitions package_output_exists).
Local Abbreviation mapping_size := (mapping_size date_parser fs).

Lemma run_of_from_zero (d : Path) (dec : decision) (count : Z) :
  fst (run_of d dec count) = fst (run_of d dec 0)
  /\ snd (run_of d dec count)
     = match snd (run_of d dec 0) with
       | Ok k => Ok (count + k)%Z
       | Raise e => Raise e
       end.
Proof.
  destruct dec; cbn; split; try reflexivity; rewrite Z.add_0_r; reflexivity.
Qed.

Lemma filter_granule_from_zero (d : Path) (good : list string)
      (pkgdir : string) (count : Z) :
  fst (filter_granule d good pkgdir count)
  = fst (filter_granule d good pkgdir 0)
  /\ snd (filter_granule d good pkgdir count)
     = match snd (filter_granule d good pkgdir 0) with
       | Ok k => Ok (count + k)%Z
       | Raise e => Raise e
       end.
Proof. rewrite !filter_granule_run. apply run_of_from_zero. Qed.

Lemma filter_granule_adds (d : Path) (good : list string) (pkgdir : string)
      (count count' : Z) :
  snd (filter_granule d good pkgdir count) = Ok count' ->
  count' = (count + Z.of_nat (if accepted good pkgdir d
                              then mapping_size d else 0))%Z.
Proof.
  rewrite filter_granule_run.
  unfold accepted, mapping_size, decide.
  destruct (acquisitions (str d)) as [[]|e]; [|cbn; intros [= <-]; lia].
  destruct (get_archive_metadata date_parser fs d)
    as [[|[[g|] sd] rest]|e]; cbn; try discriminate;
    try (intros [= <-]; lia).
  destruct (item_neg2 (Str.split "_" g)) as [t|e]; [|discriminate].
  destruct (in_set t good); [|cbn; intros [= <-]; lia].
  destruct (package_output_exists _ _ _); cbn; intros [= <-]; lia.
Qed.

Lemma accepted_has_granules (d : Path) (good : list string) (pkgdir : string) :
  accepted good pkgdir d = true -> 1 <= mapping_size d.
Proof.
  unfold accepted, mapping_size, decide.
  destruct (acquisitions (str d)) as [[]|e]; [|discriminate].
  destruct (get_archive_metadata date_parser fs d)
    as [[|[[g|] sd] rest]|e]; try discriminate.
  intros _. cbn. lia.
Qed.

Lemma filter_granules_from_total (ds : list Path) (good : list string)
      (pkgdir : string) :
  forall count count',
    snd (filter_granules_from ds good pkgdir count) = Ok count' ->
    count'
    = (count
       + Z.of_nat (list_sum (map mapping_size
                                 (filter (accepted good pkgdir) ds))))%Z.
Proof.
  induction ds as [|d ds IH]; intros count count' Hrun.
  - cbn in Hrun. injection Hrun as <-. cbn. lia.
  - cbn [filter_granules_from] in Hrun. rewrite bind_snd in Hrun.
    destruct (snd (filter_granule d good pkgdir count)) as [c1|e] eqn:Hd;
      [|discriminate].
    apply filter_granule_adds in Hd. apply IH in Hrun. subst c1 count'.
    cbn [filter].
    destruct (accepted good pkgdir d); cbn [map]; [|lia].
    change (list_sum (?x :: ?l)) with (x + list_sum l). lia.
Qed.

(** X1. The count [filter_granules] returns is the sum, over the accepted
    datasets of its input, of the sizes of their extracted mappings; from a
    count other than 0 the sum is added to it. *)
Theorem count_is_sum_over_accepted
        (raw_zips : list Path) (good : list string) (pkgdir : string)
        (count count' : Z) :
  snd (filter_granules_from raw_zips good pkgdir count) = Ok count' ->
  count'
  = (count
     + Z.of_nat (list_sum (map mapping_size
                               (filter (accepted good pkgdir) raw_zips))))%Z.
Proof. apply filter_granules_from_total. Qed.

Lemma length_le_sum (ds : list Path) :
  (forall d, In d ds -> 1 <= mapping_size d) ->
  length ds <= list_sum (map mapping_size ds).
Proof.
  induction ds as [|d ds IH]; intros H; [cbn; lia|].
  cbn [length map]. change (list_sum (?x :: ?l)) with (x + list_sum l).
  pose proof (H d (or_introl eq_refl)).
  assert (length ds <= list_sum (map mapping_size ds)).
  { apply IH. intros d' Hd'. apply H. right. exact Hd'. }
  lia.
Qed.

(** X2. When [filter_granules] returns, the count is at least the number of
    lines written, and it is 0 exactly when nothing was written: every
    dataset written stands for at least one granule. *)
Theorem count_bounds_worklist
        (raw_zips : list Path) (good : list string) (pkgdir : string)
        (count : Z) :
  snd (filter_granules raw_zips good pkgdir) = Ok count ->
  (Z.of_nat (length (printed (fst (filter_granules raw_zips good pkgdir))))
   <= count)%Z
  /\ (count = 0%Z
      <-> printed (fst (filter_granules raw_zips good pkgdir)) = []).
Proof.
  intros Hrun. unfold filter_granules in *.
  pose proof (proj1 (printed_filter_granules_from
                       _ date_parser strftime fs acquisitions
                       package_output_exists raw_zips good pkgdir 0)
                count Hrun) as Hp.
  apply filter_granules_from_total in Hrun.
  rewrite Hp, length_map.
  assert (Hle : length (filter (accepted good pkgdir) raw_zips)
                <= list_sum (map mapping_size
                                 (filter (accepted good pkgdir) raw_zips))).
  { apply length_le_sum. intros d Hd. apply filter_In in Hd as [_ Hd].
    apply (accepted_has_granules d good pkgdir Hd). }
  split; [lia|]. split.
  - intros H0.
    destruct (filter (accepted good pkgdir) raw_zips); [reflexivity|].
    cbn [length] in Hle. lia.
  - intros Hnil.
    destruct (filter (accepted good pkgdir) raw_zips); [cbn in Hrun; lia|].
    discriminate.
Qed.

Lemma at_most_one_check
      (d : Path) (good : list string) (pkgdir : string) (count : Z) :
  length (exists_calls (fst (filter_granule d good pkgdir count))) <= 1.
Proof.
  rewrite (exists_calls_filter_granule
             _ date_parser strftime fs acquisitions package_output_exists).
  destruct (decide d good pkgdir); cbn; lia.
Qed.

Lemma exists_calls_app (t1 t2 : list event) :
  exists_calls (t1 ++ t2) = exists_calls t1 ++ exists_calls t2.
Proof. unfold exists_calls. apply flat_map_app. Qed.

Lemma filter_granules_from_returns (ds : list Path) (good : list string)
      (pkgdir : string) :
  forall count,
    (exists count', snd (filter_granules_from ds good pkgdir count) = Ok count')
    <-> Forall (fun d => exists k, snd (filter_granule d good pkgdir 0) = Ok k)
               ds.
Proof.
  induction ds as [|d ds IH]; intros count.
  - split; [constructor|]. intros _. exists count. reflexivity.
  - cbn [filter_granules_from]. rewrite bind_snd.
    rewrite (proj2 (filter_granule_from_zero d good pkgdir count)).
    split.
    + intros [c' H].
      destruct (snd (filter_granule d good pkgdir 0)) as [k|e] eqn:Hd;
        [|discriminate].
      constructor; [exists k; exact Hd|].
      apply (IH (count + k)%Z). exists c'. exact H.
    + intros H. inversion H as [|d' ds' [k Hk] Hds]; subst.
      rewrite Hk. apply (IH (count + k)%Z). exact Hds.
Qed.

(** X3. [filter_granules] returns if and only if [filter_granule] returns on
    each dataset of the input: one dataset on which it raises makes the
    whole batch raise. *)
Theorem batch_returns_iff_every_dataset_returns
        (raw_zips : list Path) (good : list string) (pkgdir : string) :
  (exists count, snd (filter_granules raw_zips good pkgdir) = Ok count)
  <-> Forall (fun d => exists k, snd (filter_granule d good pkgdir 0) = Ok k)
             raw_zips.
Proof. apply filter_granules_from_returns. Qed.

Lemma raising_dataset_is_silent (d : Path) (good : list string)
      (pkgdir : string) (count : Z) (e : exn) :
  snd (filter_granule d good pkgdir count) = Raise e ->
  fst (filter_granule d good pkgdir count) = [].
Proof.
  rewrite filter_granule_run.
  destruct (decide d good pkgdir); cbn; try discriminate. reflexivity.
Qed.

(** X4. The batch stops at the first dataset on which [filter_granule]
    raises: the exception is the batch's, the events are those of the
    datasets before it, and the datasets after it are not looked at,
    whatever they are. *)
Theorem batch_stops_at_first_raise
        (before after : list Path) (d : Path) (good : list string)
        (pkgdir : string) (count : Z) (e : exn) :
  snd (filter_granules before good pkgdir) = Ok count ->
  snd (filter_granule d good pkgdir count) = Raise e ->
  filter_granules (before ++ d :: after) good pkgdir
  = (fst (filter_granules before good pkgdir), Raise e).
Proof.
  intros Hbefore Hd. unfold filter_granules in *.
  rewrite (filter_granules_from_app
             _ date_parser strftime fs acquisitions package_output_exists
             before (d :: after) good pkgdir 0).
  destruct (filter_granules_from before good pkgdir 0) as [t r].
  cbn [snd] in Hbefore. subst r. cbn [bind fst filter_granules_from].
  pose proof (raising_dataset_is_silent d good pkgdir count e Hd) as Hsilent.
  destruct (filter_granule d good pkgdir count) as [td rd].
  cbn [fst snd] in *. subst td rd. cbn [bind].
  rewrite app_nil_r. reflexivity.
Qed.

(** X5. A dataset on which [acquisitions] raises is skipped: the batch with
    it returns what the batch without it returns, writes the same lines and
    makes the same existence checks; what it adds is the warning and the
    logged exception. *)
Theorem acquisitions_failure_is_skipped
        (before after : list Path) (d : Path) (good : list string)
        (pkgdir : string) (e : exn) :
  acquisitions (str d) = Raise e ->
  filter_granule d good pkgdir 0
  = ([Log WARNING "encountered unexpected error for %s: %s"
          [AStr (str d); AExn e];
      LogException e], Ok 0%Z)
  /\ snd (filter_granules (before ++ d :: after) good pkgdir)
     = snd (filter_granules (before ++ after) good pkgdir)
  /\ printed (fst (filter_granules (before ++ d :: after) good pkgdir))
     = printed (fst (filter_granules (before ++ after) good pkgdir))
  /\ exists_calls (fst (filter_granules (before ++ d :: after) good pkgdir))
     = exists_calls (fst (filter_granules (before ++ after) good pkgdir)).
Proof.
  intros Hacq.
  assert (Hd : forall c,
             filter_granule d good pkgdir c
             = ([Log WARNING "encountered unexpected error for %s: %s"
                     [AStr (str d); AExn e];
                 LogException e], Ok c)).
  { intros c. unfold filter_granule. rewrite Hacq. reflexivity. }
  split; [apply Hd|]. unfold filter_granules.
  rewrite !(filter_granules_from_app
              _ date_parser strftime fs acquisitions package_output_exists).
  destruct (filter_granules_from before good pkgdir 0) as [t [c|e']];
    [|repeat split; reflexivity].
  cbn [bind filter_granules_from]. rewrite Hd. cbn [bind].
  destruct (filter_granules_from after good pkgdir c) as [t' r'].
  cbn [fst snd app]. rewrite !printed_app, !exists_calls_app.
  repeat split; reflexivity.
Qed.

Lemma accepted_was_checked (d : Path) (good : list string) (pkgdir : string)
      (count : Z) (line : string) :
  In line (printed (fst (filter_granule d good pkgdir count))) ->
  exists granule dir,
    In (line, granule, dir)
       (exists_calls (fst (filter_granule d good pkgdir count)))
    /\ package_output_exists line granule dir = false.
Proof.
  rewrite filter_granule_run. unfold decide.
  destruct (acquisitions (str d)) as [[]|e]; [|cbn; tauto].
  destruct (get_archive_metadata date_parser fs d)
    as [[|[[g|] sd] rest]|e]; try (cbn; tauto).
  destruct (item_neg2 (Str.split "_" g)) as [t|e]; [|cbn; tauto].
  destruct (in_set t good); [|cbn; tauto].
  cbn zeta.
  destruct (package_output_exists _ _ _) eqn:Hex; [cbn; tauto|].
  cbn. intros [<-|[]]. eexists. eexists. split; [left; reflexivity|exact Hex].
Qed.

Lemma checks_of_batch (ds : list Path) (good : list string)
      (pkgdir : string) :
  forall count,
    length (exists_calls (fst (filter_granules_from ds good pkgdir count)))
    <= length ds
    /\ forall line,
        In line (printed (fst (filter_granules_from ds good pkgdir count))) ->
        exists granule dir,
          In (line, granule, dir)
             (exists_calls (fst (filter_granules_from ds good pkgdir count)))
          /\ package_output_exists line granule dir = false.
Proof.
  induction ds as [|d ds IH]; intros count.
  - cbn. split; [lia|tauto].
  - cbn [filter_granules_from]. rewrite bind_fst.
    pose proof (accepted_was_checked d good pkgdir count) as Hd.
    pose proof (at_most_one_check d good pkgdir count) as Hone.
    destruct (snd (filter_granule d good pkgdir count)) as [c1|e].
    + destruct (IH c1) as [IHlen IHin].
      rewrite exists_calls_app, printed_app, length_app. split.
      * cbn [length]. lia.
      * intros line Hin. apply in_app_or in Hin as [Hin|Hin].
        -- destruct (Hd line Hin) as (g & dir & Hc & Hf).
           exists g, dir. split; [apply in_or_app; left; exact Hc|exact Hf].
        -- destruct (IHin line Hin) as (g & dir & Hc & Hf).
           exists g, dir. split; [apply in_or_app; right; exact Hc|exact Hf].
    + split; [cbn [length]; lia|].
      intros line Hin. destruct (Hd line Hin) as (g & dir & Hc & Hf).
      exists g, dir. split; assumption.
Qed.

(** X6. A batch makes at most one existence check per dataset, and every
    line it writes is a dataset for which the check was made and answered
    that no package exists. *)
Theorem written_datasets_were_checked
        (raw_zips : list Path) (good : list string) (pkgdir : string) :
  length (exists_calls (fst (filter_granules raw_zips good pkgdir)))
  <= length raw_zips
  /\ forall line,
      In line (printed (fst (filter_granules raw_zips good pkgdir))) ->
      exists granule dir,
        In (line, granule, dir)
           (exists_calls (fst (filter_granules raw_zips good pkgdir)))
        /\ package_output_exists line granule dir = false.
Proof. apply checks_of_batch. Qed.

(** X7. When the first granule of the extracted mapping has its tile code in
    the region of interest and its package exists, the dataset is rejected:
    the count is returned as it was, nothing is written, and the one
    existence check made is that of the first granule, whatever the other
    granules are. *)
Theorem packaged_dataset_is_rejected
        (d : Path) (good : list string) (pkgdir : string) (count : Z)
        (granule : string) (sensing_date : datetime)
        (rest : dict datetime) (tile_id : string) :
  acquisitions (str d) = Ok tt ->
  get_archive_metadata date_parser fs d
  = Ok ((Some granule, sensing_date) :: rest) ->
  item_neg2 (Str.split "_" granule) = Ok tile_id ->
  in_set tile_id good = true ->
  package_output_exists (str d) granule
    (os_path_join pkgdir (strftime sensing_date "%Y-%m-%d")) = true ->
  snd (filter_granule d good pkgdir count) = Ok count
  /\ printed (fst (filter_granule d good pkgdir count)) = []
  /\ exists_calls (fst (filter_granule d good pkgdir count))
     = [(str d, granule,
         os_path_join pkgdir (strftime sensing_date "%Y-%m-%d"))].
Proof.
  intros Hacq Hmd Htile Hin Hold.
  assert (Hdec : decide d good pkgdir
                 = Processed granule
                     (os_path_join pkgdir (strftime sensing_date "%Y-%m-%d"))).
  { unfold decide. rewrite Hacq, Hmd, Htile, Hin. cbn zeta.
    rewrite Hold. reflexivity. }
  rewrite filter_granule_run, Hdec. cbn. repeat split.
Qed.

Lemma split_without_char (c : ascii) (s : string) :
  has_char c s = false -> Str.split c s = [s].
Proof.
  induction s as [|c' s IH]; intros H; [reflexivity|].
  cbn in H. apply orb_false_iff in H as [Hc Hs].
  cbn [Str.split]. rewrite Hc, (IH Hs). reflexivity.
Qed.

(** X8. A first granule whose identifier has no underscore has no tile code:
    [filter_granule] raises [IndexError]; a first key that is [None] (a
    granule element without [granuleIdentifier]) makes it raise
    [AttributeError].  In both cases nothing is logged or written. *)
Theorem granule_without_tile_code_raises
        (d : Path) (good : list string) (pkgdir : string) (count : Z)
        (key : pykey) (sensing_date : datetime) (rest : dict datetime) :
  acquisitions (str d) = Ok tt ->
  get_archive_metadata date_parser fs d = Ok ((key, sensing_date) :: rest) ->
  (key = None ->
   filter_granule d good pkgdir count = ([], Raise AttributeError))
  /\ (forall granule,
         key = Some granule -> has_char "_" granule = false ->
         filter_granule d good pkgdir count = ([], Raise IndexError)).
Proof.
  intros Hacq Hmd. split.
  - intros ->. rewrite filter_granule_run. unfold decide.
    rewrite Hacq, Hmd. reflexivity.
  - intros granule -> Hnone. rewrite filter_granule_run. unfold decide.
    rewrite Hacq, Hmd, (split_without_char "_" granule Hnone). reflexivity.
Qed.

Lemma nothing_accepted_nothing_written (ds : list Path) (good : list string)
      (pkgdir : string) :
  (forall d, accepted good pkgdir d = false) ->
  printed (fst (filter_granules ds good pkgdir)) = []
  /\ forall count, snd (filter_granules ds good pkgdir) = Ok count ->
                   count = 0%Z.
Proof.
  intros Hnone.
  assert (Hfilter : forall l, filter (accepted good pkgdir) l = []).
  { induction l as [|x l IHl]; [reflexivity|].
    cbn [filter]. rewrite (Hnone x). exact IHl. }
  unfold filter_granules. split.
  - destruct (proj2 (printed_filter_granules_from
                       _ date_parser strftime fs acquisitions
                       package_output_exists ds good pkgdir 0)) as [n Hn].
    rewrite Hn, Hfilter. reflexivity.
  - intros count Hrun. apply filter_granules_from_total in Hrun.
    rewrite Hfilter in Hrun. cbn in Hrun. lia.
Qed.

Lemma empty_roi_no_check (ds : list Path) (pkgdir : string) :
  forall count,
    exists_calls (fst (filter_granules_from ds [] pkgdir count)) = [].
Proof.
  induction ds as [|d ds IH]; intros count; [reflexivity|].
  cbn [filter_granules_from]. rewrite bind_fst.
  assert (Hd : exists_calls (fst (filter_granule d [] pkgdir count)) = []).
  { rewrite (exists_calls_filter_granule
               _ date_parser strftime fs acquisitions package_output_exists).
    unfold decide.
    destruct (acquisitions (str d)) as [[]|e]; [|reflexivity].
    destruct (get_archive_metadata date_parser fs d)
      as [[|[[g|] sd] rest]|e]; try reflexivity.
    destruct (item_neg2 (Str.split "_" g)); reflexivity. }
  destruct (snd (filter_granule d [] pkgdir count)); [|exact Hd].
  rewrite exists_calls_app, Hd, IH. reflexivity.
Qed.

(** X9. With an empty region of interest a batch writes nothing and makes no
    existence check; when every package exists it writes nothing either.
    In both cases the count returned, when the batch returns, is 0. *)
Theorem nothing_to_process
        (raw_zips : list Path) (good : list string) (pkgdir : string) :
  (good = [] ->
   printed (fst (filter_granules raw_zips good pkgdir)) = []
   /\ exists_calls (fst (filter_granules raw_zips good pkgdir)) = []
   /\ forall count, snd (filter_granules raw_zips good pkgdir) = Ok count ->
                    count = 0%Z)
  /\ ((forall level1 granule dir,
         package_output_exists level1 granule dir = true) ->
      printed (fst (filter_granules raw_zips good pkgdir)) = []
      /\ forall count, snd (filter_granules raw_zips good pkgdir) = Ok count ->
                       count = 0%Z).
Proof.
  split.
  - intros ->.
    assert (Hnone : forall d, accepted [] pkgdir d = false).
    { intros d. unfold accepted, decide.
      destruct (acquisitions (str d)) as [[]|e]; [|reflexivity].
      destruct (get_archive_metadata date_parser fs d)
        as [[|[[g|] sd] rest]|e]; try reflexivity.
      destruct (item_neg2 (Str.split "_" g)); reflexivity. }
    destruct (nothing_accepted_nothing_written raw_zips [] pkgdir Hnone)
      as [Hp Hc].
    split; [exact Hp|]. split; [apply empty_roi_no_check|exact Hc].
  - intros Hall.
    assert (Hnone : forall d, accepted good pkgdir d = false).
    { intros d. unfold accepted, decide.
      destruct (acquisitions (str d)) as [[]|e]; [|reflexivity].
      destruct (get_archive_metadata date_parser fs d)
        as [[|[[g|] sd] rest]|e]; try reflexivity.
      destruct (item_neg2 (Str.split "_" g)); [|reflexivity].
      destruct (in_set _ good); [|reflexivity].
      cbn zeta. rewrite Hall. reflexivity. }
    apply (nothing_accepted_nothing_written raw_zips good pkgdir Hnone).
Qed.

End BatchProperties.

(** * Further properties of the extractor *)

Lemma pykey_eqb_eq (a b : pykey) : pykey_eqb a b = true <-> a = b.
Proof.
  destruct a as [x|], b as [y|]; cbn; split; try discriminate;
    try reflexivity.
  - intros H. apply String.eqb_eq in H. subst. reflexivity.
  - intros [= ->]. apply String.eqb_refl.
Qed.

Lemma dict_set_keys {V} (k : pykey) (v : V) (d : dict V) :
  forall k', In k' (map fst (dict_set k v d)) <-> k' = k \/ In k' (map fst d).
Proof.
  induction d as [|[k0 v0] d IH]; intros k'.
  - cbn. intuition congruence.
  - cbn [dict_set]. destruct (pykey_eqb k0 k) eqn:E.
    + apply pykey_eqb_eq in E. subst k0. cbn. intuition congruence.
    + cbn [map fst In]. rewrite IH. intuition congruence.
Qed.

Lemma dict_set_NoDup {V} (k : pykey) (v : V) (d : dict V) :
  NoDup (map fst d) -> NoDup (map fst (dict_set k v d)).
Proof.
  induction d as [|[k0 v0] d IH]; intros H.
  - cbn. constructor; [intros []|constructor].
  - cbn [dict_set]. destruct (pykey_eqb k0 k) eqn:E; [exact H|].
    cbn [map fst] in *. inversion H as [|x l Hnotin Hnodup]; subst.
    constructor; [|apply IH, Hnodup].
    rewrite dict_set_keys. intros [->|Hin]; [|contradiction].
    assert (pykey_eqb k k = true) by (apply pykey_eqb_eq; reflexivity).
    congruence.
Qed.

Lemma dict_set_length {V} (k : pykey) (v : V) (d : dict V) :
  length (dict_set k v d) <= S (length d).
Proof.
  induction d as [|[k0 v0] d IH]; cbn [dict_set length]; [lia|].
  destruct (pykey_eqb k0 k); cbn [length]; lia.
Qed.

Lemma dict_set_values {V} (k : pykey) (v : V) (d : dict V) :
  forall k' v', In (k', v') (dict_set k v d) -> v' = v \/ In (k', v') d.
Proof.
  induction d as [|[k0 v0] d IH]; intros k' v' H.
  - cbn in H. destruct H as [[= <- <-]|[]]. left. reflexivity.
  - cbn [dict_set] in H. destruct (pykey_eqb k0 k).
    + destruct H as [[= <- <-]|H]; [left; reflexivity|right; right; exact H].
    + destruct H as [H|H]; [right; left; exact H|].
      destruct (IH k' v' H) as [->|Hin]; [left; reflexivity|].
      right. right. exact Hin.
Qed.

Section ExtractorMore.

Variable datetime : Type.
Variable date_parser : option string -> result datetime.

Local Abbreviation get_archive_metadata := (get_archive_metadata date_parser).
Local Abbreviation metadata_of_root := (metadata_of_root date_parser).
Local Abbreviation for_granules := (for_granules date_parser).

Lemma for_granules_keys (fs : filesystem) (p : Path) (a : archive)
      (pb : option string) (grn_elements : list Element) :
  forall results md,
    for_granules fs p a pb grn_elements results = Ok md ->
    NoDup (map fst results) ->
    NoDup (map fst md)
    /\ (forall k, In k (map fst md)
                  <-> In k (map fst results)
                      \/ In k (map (fun g => get "granuleIdentifier" (attrib g))
                                   grn_elements))
    /\ length md <= length results + length grn_elements.
Proof.
  induction grn_elements as [|granule rest IH]; intros results md Hrun Hnd.
  - cbn in Hrun. injection Hrun as <-.
    split; [exact Hnd|]. split; [cbn; tauto|lia].
  - cbn [for_granules] in Hrun. cbv zeta in Hrun.
    destruct (granule_root fs p a pb _) as [root|e]; [|discriminate].
    cbn [rbind] in Hrun.
    destruct (first_item (findall "./*/SENSING_TIME" root)) as [sensing|e];
      [|discriminate].
    cbn [rbind] in Hrun.
    destruct (date_parser (text sensing)) as [parsed|e]; [|discriminate].
    cbn [rbind] in Hrun.
    destruct (IH _ _ Hrun (dict_set_NoDup _ parsed results Hnd))
      as (H1 & H2 & H3).
    split; [exact H1|]. split.
    + intros k. rewrite H2, dict_set_keys. cbn [map In].
      intuition congruence.
    + pose proof (dict_set_length
                    (get "granuleIdentifier" (attrib granule)) parsed results).
      cbn [length]. lia.
Qed.

(** X10. The keys of a mapping the extractor returns are distinct, and they
    are the [granuleIdentifier] values of the granule elements of the
    product metadata; the mapping has at most as many items as there are
    granule elements, fewer when an identifier is repeated. *)
Theorem mapping_keys_are_the_granule_identifiers
        (fs : filesystem) (p : Path) (a : archive) (member : string)
        (xml_root : Element) (md : dict datetime) :
  ZipFile fs (str p) = Ok a ->
  first_item (product_xmlfiles p a) = Ok member ->
  XML_of_member a member = Ok xml_root ->
  get_archive_metadata fs p = Ok md ->
  NoDup (map fst md)
  /\ (forall k, In k (map fst md)
                <-> In k (map (fun g => get "granuleIdentifier" (attrib g))
                             (granule_elements xml_root)))
  /\ length md <= length (granule_elements xml_root).
Proof.
  intros Hzip Hmember Hxml Hrun.
  unfold get_archive_metadata in Hrun. rewrite Hzip in Hrun.
  cbn [rbind] in Hrun. cbv zeta in Hrun. rewrite Hmember in Hrun.
  cbn [rbind] in Hrun. rewrite Hxml in Hrun. cbn [rbind] in Hrun.
  unfold metadata_of_root in Hrun. cbv zeta in Hrun.
  destruct (first_item (granule_elements xml_root)); [|discriminate].
  cbn [rbind] in Hrun.
  destruct (first_item (findall _ xml_root)); [|discriminate].
  cbn [rbind] in Hrun.
  destruct (for_granules_keys _ _ _ _ _ _ _ Hrun (NoDup_nil _))
    as (H1 & H2 & H3).
  split; [exact H1|]. split; [|exact H3].
  intros k. rewrite H2. cbn. tauto.
Qed.

Lemma granule_root_in_zip (fs : filesystem) (p : Path) (a : archive)
      (pb : option string) (gran_id : pykey) (member : string)
      (others : list string) :
  String.eqb (suffix p) ".zip" = true ->
  filter (Str.contains "MTD_TL.xml") (namelist a) = member :: others ->
  granule_root fs p a pb gran_id = XML_of_member a member.
Proof.
  intros Hsuffix Hdirect. unfold granule_root, granule_xmlzipfiles.
  rewrite Hsuffix. cbn [negb]. cbv zeta. rewrite Hdirect. reflexivity.
Qed.

Lemma for_granules_one_value (fs : filesystem) (p : Path) (a : archive)
      (pb : option string) (member : string) (others : list string)
      (root sensing : Element) (value : datetime)
      (grn_elements : list Element) :
  String.eqb (suffix p) ".zip" = true ->
  filter (Str.contains "MTD_TL.xml") (namelist a) = member :: others ->
  XML_of_member a member = Ok root ->
  first_item (findall "./*/SENSING_TIME" root) = Ok sensing ->
  date_parser (text sensing) = Ok value ->
  forall results md,
    for_granules fs p a pb grn_elements results = Ok md ->
    (forall k v, In (k, v) results -> v = value) ->
    forall k v, In (k, v) md -> v = value.
Proof.
  intros Hsuffix Hdirect Hroot Hsensing Hvalue.
  induction grn_elements as [|granule rest IH]; intros results md Hrun Hres.
  - cbn in Hrun. injection Hrun as <-. exact Hres.
  - cbn [for_granules] in Hrun. cbv zeta in Hrun.
    rewrite (granule_root_in_zip fs p a pb _ member others Hsuffix Hdirect)
      in Hrun.
    rewrite Hroot in Hrun. cbn [rbind] in Hrun.
    rewrite Hsensing in Hrun. cbn [rbind] in Hrun.
    rewrite Hvalue in Hrun. cbn [rbind] in Hrun.
    apply (IH _ _ Hrun). intros k v Hin.
    apply dict_set_values in Hin as [->|Hin]; [reflexivity|].
    apply (Hres k v Hin).
Qed.

(** X11. In a [.zip] archive with a member whose name holds [MTD_TL.xml],
    every granule gets the sensing time of the first such member: the
    granules of a mapping returned all have the same time, the one parsed
    from that member, whichever document belongs to them. *)
Theorem granules_share_first_tile_document
        (fs : filesystem) (p : Path) (a : archive) (member : string)
        (others : list string) (md : dict datetime) :
  String.eqb (suffix p) ".zip" = true ->
  ZipFile fs (str p) = Ok a ->
  filter (Str.contains "MTD_TL.xml") (namelist a) = member :: others ->
  get_archive_metadata fs p = Ok md ->
  exists root sensing value,
    XML_of_member a member = Ok root
    /\ first_item (findall "./*/SENSING_TIME" root) = Ok sensing
    /\ date_parser (text sensing) = Ok value
    /\ forall k v, In (k, v) md -> v = value.
Proof.
  intros Hsuffix Hzip Hdirect Hrun.
  unfold get_archive_metadata in Hrun. rewrite Hzip in Hrun.
  cbn [rbind] in Hrun. cbv zeta in Hrun.
  destruct (first_item (product_xmlfiles p a)) as [m|e]; [|discriminate].
  cbn [rbind] in Hrun.
  destruct (XML_of_member a m) as [xml_root|e]; [|discriminate].
  cbn [rbind] in Hrun. unfold metadata_of_root in Hrun. cbv zeta in Hrun.
  destruct (granule_elements xml_root) as [|granule rest]; [discriminate|].
  cbn [first_item rbind] in Hrun.
  destruct (first_item (findall _ xml_root)) as [baseline|e];
    [|discriminate].
  cbn [rbind] in Hrun.
  pose proof Hrun as Hfirst. cbn [for_granules] in Hfirst.
  cbv zeta in Hfirst.
  rewrite (granule_root_in_zip fs p a _ _ member others Hsuffix Hdirect)
    in Hfirst.
  destruct (XML_of_member a member) as [root|e] eqn:Hroot; [|discriminate].
  cbn [rbind] in Hfirst.
  destruct (first_item (findall "./*/SENSING_TIME" root))
    as [sensing|e] eqn:Hsensing; [|discriminate].
  cbn [rbind] in Hfirst.
  destruct (date_parser (text sensing)) as [value|e] eqn:Hvalue;
    [|discriminate].
  exists root, sensing, value.
  split; [reflexivity|]. split; [exact Hsensing|]. split; [exact Hvalue|].
  apply (for_granules_one_value fs p a (text baseline) member others root
           sensing value (granule :: rest) Hsuffix Hdirect Hroot Hsensing
           Hvalue [] md Hrun).
  intros k v [].
Qed.

Lemma for_granules_in_zip_agree (fs1 fs2 : filesystem) (p : Path)
      (a : archive) (pb : option string) (grn_elements : list Element) :
  String.eqb (suffix p) ".zip" = true ->
  forall results,
    for_granules fs1 p a pb grn_elements results
    = for_granules fs2 p a pb grn_elements results.
Proof.
  intros Hsuffix.
  induction grn_elements as [|granule rest IH]; intros results;
    [reflexivity|].
  cbn [for_granules]. cbv zeta.
  assert (E : forall gid, granule_root fs1 p a pb gid
                          = granule_root fs2 p a pb gid).
  { intros gid. unfold granule_root. rewrite Hsuffix. reflexivity. }
  rewrite E.
  destruct (granule_root fs2 p a pb _) as [root|e]; [|reflexivity].
  cbn [rbind].
  destruct (first_item (findall "./*/SENSING_TIME" root)) as [sensing|e];
    [|reflexivity].
  cbn [rbind].
  destruct (date_parser (text sensing)) as [parsed|e]; [|reflexivity].
  cbn [rbind]. apply IH.
Qed.

(** X12. What the extractor reads: for a [.zip] reference the result is the
    same on any two file systems that hold the same node at the reference;
    for another suffix, on any two that also hold the same nodes at the
    paths of the granule documents.  Nothing else on the file system has a
    part in the result. *)
Theorem extractor_reads_only_the_archive_and_granule_documents
        (fs1 fs2 : filesystem) (p : Path) :
  fs1 (str p) = fs2 (str p) ->
  (String.eqb (suffix p) ".zip" = true ->
   get_archive_metadata fs1 p = get_archive_metadata fs2 p)
  /\ ((forall g path, gran_path p (Some g) = Ok path -> fs1 path = fs2 path) ->
      get_archive_metadata fs1 p = get_archive_metadata fs2 p).
Proof.
  intros Hp. split.
  - intros Hsuffix. unfold get_archive_metadata, ZipFile. rewrite Hp.
    destruct (fs2 (str p)) as [| |a|e|]; try reflexivity.
    cbn [rbind]. cbv zeta.
    destruct (first_item (product_xmlfiles p a)) as [member|e];
      [|reflexivity].
    cbn [rbind].
    destruct (XML_of_member a member) as [xml_root|e]; [|reflexivity].
    cbn [rbind]. unfold metadata_of_root. cbv zeta.
    destruct (first_item (granule_elements xml_root)); [|reflexivity].
    cbn [rbind].
    destruct (first_item (findall _ xml_root)); [|reflexivity].
    cbn [rbind]. apply for_granules_in_zip_agree, Hsuffix.
  - intros H.
    apply (get_archive_metadata_agree _ date_parser fs1 fs2 p Hp H).
Qed.

End ExtractorMore.

(** * Properties of calcnodes.py *)

Section CalcnodesProperties.

Import Calcnodes.

Variable int : string -> option Z.
Variable open : string -> outcome string.

Local Abbreviation ints := (ints int).
Local Abbreviation calc_nodes_req := (calc_nodes_req int).
Local Abbreviation file_len := (file_len open).

Lemma enumerate_pass_last (lines : list string) :
  forall index i,
    enumerate_pass lines index i
    = match lines with
      | [] => i
      | _ :: _ => Some (index + length lines - 1)
      end.
Proof.
  induction lines as [|l rest IH]; intros index i; [reflexivity|].
  cbn [enumerate_pass]. rewrite IH.
  destruct rest as [|l' rest']; cbn [length]; f_equal; lia.
Qed.

Lemma last_char_of_text (c : ascii) (rest : string) :
  exists c', last_char (String c rest) = Some c'.
Proof.
  revert c. induction rest as [|c1 rest IH]; intros c.
  - exists c. reflexivity.
  - destruct (IH c1) as [c' H]. exists c'. exact H.
Qed.

Lemma lines_from_length (text : string) :
  forall current,
    length (lines_from current text)
    = newlines text
      + match last_char text with
        | Some c => if Ascii.eqb c newline then 0 else 1
        | None => match current with EmptyString => 0 | _ => 1 end
        end.
Proof.
  induction text as [|c rest IH]; intros current.
  - destruct current; reflexivity.
  - destruct rest as [|c' rest'].
    + cbn [lines_from newlines last_char].
      destruct (Ascii.eqb c newline); [reflexivity|].
      destruct current; reflexivity.
    + change (last_char (String c (String c' rest')))
        with (last_char (String c' rest')).
      destruct (last_char_of_text c' rest') as [x Hx].
      change (newlines (String c (String c' rest')))
        with ((if Ascii.eqb c newline then 1 else 0)
              + newlines (String c' rest')).
      change (lines_from current (String c (String c' rest')))
        with (if Ascii.eqb c newline
              then (current ++ String c EmptyString)%string
                   :: lines_from EmptyString (String c' rest')
              else lines_from (current ++ String c EmptyString)%string
                              (String c' rest')).
      destruct (Ascii.eqb c newline); cbn [length]; rewrite IH, Hx; lia.
Qed.

Lemma newline_at_end_counts (text : string) (c : ascii) :
  last_char text = Some c -> Ascii.eqb c newline = true ->
  1 <= newlines text.
Proof.
  induction text as [|c0 rest IH]; intros Hlast Hc; [discriminate|].
  cbn [newlines]. destruct rest as [|c1 rest'].
  - cbn in Hlast. injection Hlast as ->. rewrite Hc. cbn. lia.
  - pose proof (IH Hlast Hc). lia.
Qed.

Lemma file_len_of_text (fname text : string) :
  open fname = Returns text ->
  file_len fname
  = match text with
    | EmptyString => Raises UnboundLocalError
    | _ => Returns (Z.of_nat (newlines text
                              + if unterminated text then 1 else 0))
    end.
Proof.
  intros Hopen. unfold file_len. rewrite Hopen. cbn [obind].
  rewrite enumerate_pass_last.
  pose proof (lines_from_length text EmptyString) as Hlen.
  destruct text as [|c rest]; [reflexivity|].
  destruct (last_char_of_text c rest) as [c' Hlast].
  unfold unterminated. rewrite Hlast in *.
  assert (Hpos : 1 <= length (lines_from EmptyString (String c rest))).
  { rewrite Hlen. destruct (Ascii.eqb c' newline) eqn:Hc'; [|lia].
    pose proof (newline_at_end_counts _ _ Hlast Hc'). lia. }
  destruct (lines_from EmptyString (String c rest)) as [|l ls];
    [cbn in Hpos; lia|].
  f_equal.
  destruct (Ascii.eqb c' newline); cbn [negb length] in *; lia.
Qed.

(** X13. [file_len] returns, for a file that is not empty, the number of its
    newline characters, plus one when its last line is not ended by a
    newline; on an empty file it raises [UnboundLocalError], the loop
    variable never having been bound. *)
Theorem file_len_counts_lines (fname text : string) :
  open fname = Returns text ->
  (text = EmptyString -> file_len fname = Raises UnboundLocalError)
  /\ (text <> EmptyString ->
      file_len fname
      = Returns (Z.of_nat (newlines text
                           + if unterminated text then 1 else 0)))
  /\ (forall n, file_len fname = Returns n -> (1 <= n)%Z).
Proof.
  intros Hopen. rewrite (file_len_of_text fname text Hopen).
  split; [intros ->; reflexivity|]. split.
  - intros Hne. destruct text; [contradiction Hne; reflexivity|reflexivity].
  - intros n. destruct text as [|c rest]; [discriminate|].
    intros [= <-].
    destruct (last_char_of_text c rest) as [c' Hlast].
    unfold unterminated. rewrite Hlast.
    destruct (Ascii.eqb c' newline) eqn:Hc'; cbv beta iota delta [negb];
      [|lia].
    pose proof (newline_at_end_counts _ _ Hlast Hc') as Hnl.
    cbn [newlines] in *. lia.
Qed.

Lemma ints_shape (fields : list string) :
  match ints fields with
  | Returns values => length values = length fields
  | Raises e => e = ValueError
  end.
Proof.
  induction fields as [|x rest IH]; [reflexivity|].
  cbn [Calcnodes.ints]. destruct (int x) as [n|]; [|reflexivity].
  destruct (ints rest) as [ns|e]; cbn [obind length]; [|exact IH].
  f_equal. exact IH.
Qed.

Lemma walltime_fields (granule_count : Z) (walltime : string) (workers : Z)
      (hours_per_granule : spec_float) :
  length (Str.split ":" walltime) <> 3 ->
  calc_nodes_req granule_count walltime workers hours_per_granule
  = Raises ValueError.
Proof.
  intros Hlen. unfold calc_nodes_req.
  pose proof (ints_shape (Str.split ":" walltime)) as Hshape.
  destruct (ints (Str.split ":" walltime)) as [values|e];
    [|subst e; reflexivity].
  cbn [obind].
  destruct values as [|a [|b [|c [|d rest]]]]; try reflexivity.
  cbn [length] in Hshape. congruence.
Qed.

Lemma ints_unparsable (fields : list string) (x : string) :
  In x fields -> int x = None -> ints fields = Raises ValueError.
Proof.
  induction fields as [|y rest IH]; intros Hin Hx; [contradiction|].
  cbn [Calcnodes.ints]. destruct (int y) as [n|] eqn:Hy; [|reflexivity].
  destruct Hin as [->|Hin]; [congruence|].
  rewrite (IH Hin Hx). reflexivity.
Qed.

(** X14. [calc_nodes_req] raises [ValueError] unless [walltime] has exactly
    three fields between colons, each of which [int] accepts: in particular
    on ['hh:mm'], the form of the first example of its docstring. *)
Theorem walltime_needs_three_integer_fields
        (granule_count : Z) (walltime : string) (workers : Z)
        (hours_per_granule : spec_float) :
  length (Str.split ":" walltime) <> 3
  \/ (exists x, In x (Str.split ":" walltime) /\ int x = None) ->
  calc_nodes_req granule_count walltime workers hours_per_granule
  = Raises ValueError.
Proof.
  intros [Hlen|(x & Hin & Hx)]; [apply walltime_fields, Hlen|].
  unfold calc_nodes_req. rewrite (ints_unparsable _ x Hin Hx). reflexivity.
Qed.

(** X15. Only the hours of [walltime] count, and they must not be 0: with
    three integer fields, 0 hours or 0 workers make [calc_nodes_req] raise
    [ZeroDivisionError], whatever the minutes and seconds, once the
    granule count has been converted to a float. *)
Theorem zero_hours_or_workers_divide_by_zero
        (granule_count : Z) (walltime : string) (workers : Z)
        (hours_per_granule work : spec_float)
        (h m s : string) (hours minutes seconds : Z) :
  Str.split ":" walltime = [h; m; s] ->
  int h = Some hours -> int m = Some minutes -> int s = Some seconds ->
  float_mul_int hours_per_granule granule_count = Returns work ->
  (hours = 0 \/ workers = 0)%Z ->
  calc_nodes_req granule_count walltime workers hours_per_granule
  = Raises ZeroDivisionError.
Proof.
  intros Hsplit Hh Hm Hs Hwork Hzero.
  unfold calc_nodes_req. rewrite Hsplit. cbn [Calcnodes.ints].
  rewrite Hh, Hm, Hs. cbn [obind unpack3]. rewrite Hwork. cbn [obind].
  assert (E : (hours * workers = 0)%Z) by lia. rewrite E. reflexivity.
Qed.

End CalcnodesProperties.

(** * The further properties on the sample products *)

(** A batch of an archive of two granules, one outside the region of
    interest and one of a single granule: two lines, three granules. *)
Lemma count_is_sum_over_accepted_witness :
  snd (filter_granules_from Sample.date_parser Sample.strftime SampleMore.fs Sample.acquisitions Sample.nothing_packaged
         [SampleMore.d_multi; Sample.d_two; Sample.d_50HMH] ["T55HFA"; "T50HMH"] "/pkg" 0%Z) = Ok 3%Z
  /\ 3%Z
     = (0 + Z.of_nat
              (list_sum
                 (map (mapping_size Sample.date_parser SampleMore.fs)
                      (filter (accepted Sample.date_parser Sample.strftime SampleMore.fs Sample.acquisitions Sample.nothing_packaged
                                        ["T55HFA"; "T50HMH"] "/pkg")
                              [SampleMore.d_multi; Sample.d_two; Sample.d_50HMH]))))%Z
  /\ map (mapping_size Sample.date_parser SampleMore.fs) [SampleMore.d_multi; Sample.d_two; Sample.d_50HMH]
     = [2; 2; 1].
Proof.
  assert (Hrun : snd (filter_granules_from Sample.date_parser Sample.strftime SampleMore.fs Sample.acquisitions Sample.nothing_packaged
                        [SampleMore.d_multi; Sample.d_two; Sample.d_50HMH] ["T55HFA"; "T50HMH"] "/pkg" 0%Z) = Ok 3%Z)
    by (vm_compute; reflexivity).
  split; [exact Hrun|]. split; [|vm_compute; reflexivity].
  exact (count_is_sum_over_accepted
           string Sample.date_parser Sample.strftime SampleMore.fs Sample.acquisitions Sample.nothing_packaged
           [SampleMore.d_multi; Sample.d_two; Sample.d_50HMH] ["T55HFA"; "T50HMH"] "/pkg" 0%Z 3%Z Hrun).
Defined.

Lemma count_bounds_worklist_witness :
  snd (filter_granules Sample.date_parser Sample.strftime SampleMore.fs Sample.acquisitions Sample.nothing_packaged
         [SampleMore.d_multi; Sample.d_two; Sample.d_50HMH] ["T55HFA"; "T50HMH"] "/pkg") = Ok 3%Z
  /\ printed (fst (filter_granules Sample.date_parser Sample.strftime SampleMore.fs Sample.acquisitions Sample.nothing_packaged
                     [SampleMore.d_multi; Sample.d_two; Sample.d_50HMH] ["T55HFA"; "T50HMH"] "/pkg"))
     = ["/data/S2A_multi.zip"; "/data/S2A_50HMH.zip"]
  /\ (Z.of_nat (length (printed (fst (filter_granules Sample.date_parser Sample.strftime SampleMore.fs Sample.acquisitions Sample.nothing_packaged
                                        [SampleMore.d_multi; Sample.d_two; Sample.d_50HMH] ["T55HFA"; "T50HMH"] "/pkg"))))
      <= 3)%Z.
Proof.
  assert (Hrun : snd (filter_granules Sample.date_parser Sample.strftime SampleMore.fs Sample.acquisitions Sample.nothing_packaged
                        [SampleMore.d_multi; Sample.d_two; Sample.d_50HMH] ["T55HFA"; "T50HMH"] "/pkg") = Ok 3%Z)
    by (vm_compute; reflexivity).
  split; [exact Hrun|]. split; [vm_compute; reflexivity|].
  exact (proj1 (count_bounds_worklist
                  string Sample.date_parser Sample.strftime SampleMore.fs Sample.acquisitions Sample.nothing_packaged
                  [SampleMore.d_multi; Sample.d_two; Sample.d_50HMH] ["T55HFA"; "T50HMH"] "/pkg" 3%Z Hrun)).
Defined.

Lemma batch_returns_iff_every_dataset_returns_witness :
  Forall (fun d => exists k,
              snd (filter_granule Sample.date_parser Sample.strftime SampleMore.fs Sample.acquisitions Sample.nothing_packaged
                     d ["T55HFA"; "T50HMH"] "/pkg" 0%Z) = Ok k)
         [SampleMore.d_multi; Sample.d_two; Sample.d_50HMH]
  /\ exists count,
      snd (filter_granules Sample.date_parser Sample.strftime SampleMore.fs Sample.acquisitions Sample.nothing_packaged
             [SampleMore.d_multi; Sample.d_two; Sample.d_50HMH] ["T55HFA"; "T50HMH"] "/pkg") = Ok count.
Proof.
  assert (Heach : Forall (fun d => exists k,
                              snd (filter_granule Sample.date_parser Sample.strftime SampleMore.fs Sample.acquisitions Sample.nothing_packaged
                                     d ["T55HFA"; "T50HMH"] "/pkg" 0%Z) = Ok k)
                         [SampleMore.d_multi; Sample.d_two; Sample.d_50HMH]).
  { repeat constructor; eexists; vm_compute; reflexivity. }
  split; [exact Heach|].
  exact (proj2 (batch_returns_iff_every_dataset_returns
                  string Sample.date_parser Sample.strftime SampleMore.fs Sample.acquisitions Sample.nothing_packaged
                  [SampleMore.d_multi; Sample.d_two; Sample.d_50HMH] ["T55HFA"; "T50HMH"] "/pkg") Heach).
Defined.

(** The batch of C1, in general form: it stops at the archive without
    product metadata. *)
Lemma batch_stops_at_first_raise_witness :
  snd (filter_granules Sample.date_parser Sample.strftime SampleMore.fs Sample.acquisitions Sample.nothing_packaged
         [Sample.d_55HFA] ["T55HFA"; "T50HMH"] "/pkg") = Ok 1%Z
  /\ snd (filter_granule Sample.date_parser Sample.strftime SampleMore.fs Sample.acquisitions Sample.nothing_packaged
            Sample.d_bare ["T55HFA"; "T50HMH"] "/pkg" 1%Z) = Raise IndexError
  /\ filter_granules Sample.date_parser Sample.strftime SampleMore.fs Sample.acquisitions Sample.nothing_packaged
       ([Sample.d_55HFA] ++ Sample.d_bare :: [Sample.d_50HMH]) ["T55HFA"; "T50HMH"] "/pkg"
     = (fst (filter_granules Sample.date_parser Sample.strftime SampleMore.fs Sample.acquisitions Sample.nothing_packaged
               [Sample.d_55HFA] ["T55HFA"; "T50HMH"] "/pkg"), Raise IndexError).
Proof.
  assert (Hbefore : snd (filter_granules Sample.date_parser Sample.strftime SampleMore.fs Sample.acquisitions Sample.nothing_packaged
                           [Sample.d_55HFA] ["T55HFA"; "T50HMH"] "/pkg") = Ok 1%Z)
    by (vm_compute; reflexivity).
  assert (Hd : snd (filter_granule Sample.date_parser Sample.strftime SampleMore.fs Sample.acquisitions Sample.nothing_packaged
                      Sample.d_bare ["T55HFA"; "T50HMH"] "/pkg" 1%Z) = Raise IndexError)
    by (vm_compute; reflexivity).
  split; [exact Hbefore|]. split; [exact Hd|].
  exact (batch_stops_at_first_raise
           string Sample.date_parser Sample.strftime SampleMore.fs Sample.acquisitions Sample.nothing_packaged
           [Sample.d_55HFA] [Sample.d_50HMH] Sample.d_bare ["T55HFA"; "T50HMH"] "/pkg"
           1%Z IndexError Hbefore Hd).
Defined.

(** The same batch when [acquisitions] raises on the archive without
    product metadata: both other datasets are written. *)
Lemma acquisitions_failure_is_skipped_witness :
  SampleMore.acquisitions_but_bare (str Sample.d_bare)
  = Raise (OtherError "No acquisitions found")
  /\ snd (filter_granules Sample.date_parser Sample.strftime SampleMore.fs SampleMore.acquisitions_but_bare Sample.nothing_packaged
            ([Sample.d_55HFA] ++ Sample.d_bare :: [Sample.d_50HMH])
            ["T55HFA"; "T50HMH"] "/pkg")
     = snd (filter_granules Sample.date_parser Sample.strftime SampleMore.fs SampleMore.acquisitions_but_bare Sample.nothing_packaged
              ([Sample.d_55HFA] ++ [Sample.d_50HMH]) ["T55HFA"; "T50HMH"] "/pkg")
  /\ snd (filter_granules Sample.date_parser Sample.strftime SampleMore.fs SampleMore.acquisitions_but_bare Sample.nothing_packaged
            ([Sample.d_55HFA] ++ Sample.d_bare :: [Sample.d_50HMH])
            ["T55HFA"; "T50HMH"] "/pkg") = Ok 2%Z
  /\ printed (fst (filter_granules Sample.date_parser Sample.strftime SampleMore.fs SampleMore.acquisitions_but_bare Sample.nothing_packaged
                     ([Sample.d_55HFA] ++ Sample.d_bare :: [Sample.d_50HMH])
                     ["T55HFA"; "T50HMH"] "/pkg"))
     = ["/data/S2A_55HFA.zip"; "/data/S2A_50HMH.zip"].
Proof.
  assert (Hacq : SampleMore.acquisitions_but_bare (str Sample.d_bare)
                 = Raise (OtherError "No acquisitions found"))
    by (vm_compute; reflexivity).
  split; [exact Hacq|].
  split; [|split; vm_compute; reflexivity].
  exact (proj1 (proj2 (acquisitions_failure_is_skipped
                         string Sample.date_parser Sample.strftime SampleMore.fs SampleMore.acquisitions_but_bare Sample.nothing_packaged
                         [Sample.d_55HFA] [Sample.d_50HMH] Sample.d_bare
                         ["T55HFA"; "T50HMH"] "/pkg" (OtherError "No acquisitions found")
                         Hacq))).
Defined.

Lemma written_datasets_were_checked_witness :
  exists_calls (fst (filter_granules Sample.date_parser Sample.strftime SampleMore.fs Sample.acquisitions Sample.nothing_packaged
                       [SampleMore.d_multi; Sample.d_two; Sample.d_50HMH] ["T55HFA"; "T50HMH"] "/pkg"))
  = [("/data/S2A_multi.zip", Sample.gid_55HFA, "/pkg/2021-03-01");
     ("/data/S2A_50HMH.zip", Sample.gid_50HMH, "/pkg/2021-03-01")]
  /\ length (exists_calls (fst (filter_granules Sample.date_parser Sample.strftime SampleMore.fs Sample.acquisitions Sample.nothing_packaged
                                 [SampleMore.d_multi; Sample.d_two; Sample.d_50HMH] ["T55HFA"; "T50HMH"] "/pkg")))
     <= length [SampleMore.d_multi; Sample.d_two; Sample.d_50HMH].
Proof.
  split; [vm_compute; reflexivity|].
  exact (proj1 (written_datasets_were_checked
                  string Sample.date_parser Sample.strftime SampleMore.fs Sample.acquisitions Sample.nothing_packaged
                  [SampleMore.d_multi; Sample.d_two; Sample.d_50HMH] ["T55HFA"; "T50HMH"] "/pkg")).
Defined.

(** The spec's second run: the package of the one granule exists. *)
Lemma packaged_dataset_is_rejected_witness :
  Sample.acquisitions (str Sample.d_55HFA) = Ok tt
  /\ get_archive_metadata Sample.date_parser Sample.fs Sample.d_55HFA
     = Ok [(Some Sample.gid_55HFA, "2021-03-01T00:12:00Z")]
  /\ item_neg2 (Str.split "_" Sample.gid_55HFA) = Ok "T55HFA"
  /\ in_set "T55HFA" ["T55HFA"] = true
  /\ Sample.all_packaged (str Sample.d_55HFA) Sample.gid_55HFA
       (os_path_join "/pkg"
          (Sample.strftime "2021-03-01T00:12:00Z" "%Y-%m-%d")) = true
  /\ snd (filter_granule Sample.date_parser Sample.strftime Sample.fs Sample.acquisitions Sample.all_packaged
            Sample.d_55HFA ["T55HFA"] "/pkg" 0%Z) = Ok 0%Z
  /\ printed (fst (filter_granule Sample.date_parser Sample.strftime Sample.fs Sample.acquisitions Sample.all_packaged
                     Sample.d_55HFA ["T55HFA"] "/pkg" 0%Z)) = [].
Proof.
  assert (Hacq : Sample.acquisitions (str Sample.d_55HFA) = Ok tt)
    by reflexivity.
  assert (Hmd : get_archive_metadata Sample.date_parser Sample.fs
                                     Sample.d_55HFA
                = Ok [(Some Sample.gid_55HFA, "2021-03-01T00:12:00Z")])
    by (vm_compute; reflexivity).
  assert (Htile : item_neg2 (Str.split "_" Sample.gid_55HFA) = Ok "T55HFA")
    by (vm_compute; reflexivity).
  assert (Hin : in_set "T55HFA" ["T55HFA"] = true)
    by (vm_compute; reflexivity).
  assert (Hold : Sample.all_packaged (str Sample.d_55HFA) Sample.gid_55HFA
                   (os_path_join "/pkg"
                      (Sample.strftime "2021-03-01T00:12:00Z" "%Y-%m-%d"))
                 = true) by reflexivity.
  destruct (packaged_dataset_is_rejected
              string Sample.date_parser Sample.strftime Sample.fs Sample.acquisitions Sample.all_packaged
              Sample.d_55HFA ["T55HFA"] "/pkg" 0%Z
              Sample.gid_55HFA "2021-03-01T00:12:00Z" [] "T55HFA"
              Hacq Hmd Htile Hin Hold) as [Hr [Hp _]].
  repeat split; assumption.
Defined.

(** An identifier without underscore, and a granule element without
    identifier. *)
Lemma granule_without_tile_code_raises_witness :
  get_archive_metadata Sample.date_parser SampleMore.fs SampleMore.d_plain_id
  = Ok [(Some "T55HFA", "2021-03-01T00:12:00Z")]
  /\ has_char "_" "T55HFA" = false
  /\ filter_granule Sample.date_parser Sample.strftime SampleMore.fs Sample.acquisitions Sample.nothing_packaged
       SampleMore.d_plain_id ["T55HFA"] "/pkg" 0%Z = ([], Raise IndexError)
  /\ get_archive_metadata Sample.date_parser SampleMore.fs SampleMore.d_no_id
     = Ok [(None, "2021-03-01T00:12:00Z")]
  /\ filter_granule Sample.date_parser Sample.strftime SampleMore.fs Sample.acquisitions Sample.nothing_packaged
       SampleMore.d_no_id ["T55HFA"] "/pkg" 0%Z = ([], Raise AttributeError).
Proof.
  assert (Hmd : get_archive_metadata Sample.date_parser SampleMore.fs
                                     SampleMore.d_plain_id
                = Ok [(Some "T55HFA", "2021-03-01T00:12:00Z")])
    by (vm_compute; reflexivity).
  assert (Hnone : has_char "_" "T55HFA" = false) by (vm_compute; reflexivity).
  assert (Hmd' : get_archive_metadata Sample.date_parser SampleMore.fs
                                      SampleMore.d_no_id
                 = Ok [(None, "2021-03-01T00:12:00Z")])
    by (vm_compute; reflexivity).
  split; [exact Hmd|]. split; [exact Hnone|]. split.
  - exact (proj2 (granule_without_tile_code_raises
                    string Sample.date_parser Sample.strftime SampleMore.fs Sample.acquisitions Sample.nothing_packaged
                    SampleMore.d_plain_id ["T55HFA"] "/pkg" 0%Z
                    (Some "T55HFA") "2021-03-01T00:12:00Z" []
                    eq_refl Hmd) "T55HFA" eq_refl Hnone).
  - split; [exact Hmd'|].
    exact (proj1 (granule_without_tile_code_raises
                    string Sample.date_parser Sample.strftime SampleMore.fs Sample.acquisitions Sample.nothing_packaged
                    SampleMore.d_no_id ["T55HFA"] "/pkg" 0%Z
                    None "2021-03-01T00:12:00Z" []
                    eq_refl Hmd') eq_refl).
Defined.

Lemma nothing_to_process_witness :
  printed (fst (filter_granules Sample.date_parser Sample.strftime SampleMore.fs Sample.acquisitions Sample.nothing_packaged
                  [SampleMore.d_multi; Sample.d_two; Sample.d_50HMH] [] "/pkg")) = []
  /\ exists_calls (fst (filter_granules Sample.date_parser Sample.strftime SampleMore.fs Sample.acquisitions Sample.nothing_packaged
                          [SampleMore.d_multi; Sample.d_two; Sample.d_50HMH] [] "/pkg")) = []
  /\ snd (filter_granules Sample.date_parser Sample.strftime SampleMore.fs Sample.acquisitions Sample.nothing_packaged
            [SampleMore.d_multi; Sample.d_two; Sample.d_50HMH] [] "/pkg") = Ok 0%Z.
Proof.
  destruct (proj1 (nothing_to_process
                     string Sample.date_parser Sample.strftime SampleMore.fs Sample.acquisitions Sample.nothing_packaged
                     [SampleMore.d_multi; Sample.d_two; Sample.d_50HMH] [] "/pkg") eq_refl) as [Hp [Hc _]].
  split; [exact Hp|]. split; [exact Hc|]. vm_compute. reflexivity.
Defined.

(** Three granule elements, two with the same identifier: two items. *)
Lemma mapping_keys_are_the_granule_identifiers_witness :
  ZipFile SampleMore.fs (str SampleMore.d_twice) = Ok SampleMore.zip_twice
  /\ length (granule_elements
               (Sample.product_doc "02.09"
                  [Sample.new_granule Sample.gid_55HFA;
                   Sample.new_granule Sample.gid_50HMH;
                   Sample.new_granule Sample.gid_55HFA])) = 3
  /\ get_archive_metadata Sample.date_parser SampleMore.fs SampleMore.d_twice
     = Ok [(Some Sample.gid_55HFA, "2021-03-01T00:12:00Z");
           (Some Sample.gid_50HMH, "2021-03-01T00:12:00Z")]
  /\ NoDup (map fst [(Some Sample.gid_55HFA, "2021-03-01T00:12:00Z");
                     (Some Sample.gid_50HMH, "2021-03-01T00:12:00Z")]).
Proof.
  assert (Hzip : ZipFile SampleMore.fs (str SampleMore.d_twice)
                 = Ok SampleMore.zip_twice) by (vm_compute; reflexivity).
  assert (Hmember : first_item (product_xmlfiles SampleMore.d_twice
                                                 SampleMore.zip_twice)
                    = Ok "S2A_MSIL1C.SAFE/MTD_MSIL1C.xml")
    by (vm_compute; reflexivity).
  assert (Hxml : XML_of_member SampleMore.zip_twice
                               "S2A_MSIL1C.SAFE/MTD_MSIL1C.xml"
                 = Ok (Sample.product_doc "02.09"
                         [Sample.new_granule Sample.gid_55HFA;
                          Sample.new_granule Sample.gid_50HMH;
                          Sample.new_granule Sample.gid_55HFA]))
    by (vm_compute; reflexivity).
  assert (Hrun : get_archive_metadata Sample.date_parser SampleMore.fs
                                      SampleMore.d_twice
                 = Ok [(Some Sample.gid_55HFA, "2021-03-01T00:12:00Z");
                       (Some Sample.gid_50HMH, "2021-03-01T00:12:00Z")])
    by (vm_compute; reflexivity).
  split; [exact Hzip|]. split; [vm_compute; reflexivity|].
  split; [exact Hrun|].
  exact (proj1 (mapping_keys_are_the_granule_identifiers
                  string Sample.date_parser SampleMore.fs SampleMore.d_twice
                  SampleMore.zip_twice "S2A_MSIL1C.SAFE/MTD_MSIL1C.xml"
                  _ _ Hzip Hmember Hxml Hrun)).
Defined.

(** Two granules with their own documents and sensing times: both get the
    time of the first document. *)
Lemma granules_share_first_tile_document_witness :
  String.eqb (suffix SampleMore.d_multi) ".zip" = true
  /\ ZipFile SampleMore.fs (str SampleMore.d_multi) = Ok SampleMore.zip_multi
  /\ length (filter (Str.contains "MTD_TL.xml")
                    (namelist SampleMore.zip_multi)) = 2
  /\ get_archive_metadata Sample.date_parser SampleMore.fs SampleMore.d_multi
     = Ok [(Some Sample.gid_55HFA, "2021-03-01T00:12:00Z");
           (Some Sample.gid_50HMH, "2021-03-01T00:12:00Z")]
  /\ exists value,
      forall k v,
        In (k, v) [(Some Sample.gid_55HFA, "2021-03-01T00:12:00Z");
                   (Some Sample.gid_50HMH, "2021-03-01T00:12:00Z")] ->
        v = value.
Proof.
  assert (Hsuffix : String.eqb (suffix SampleMore.d_multi) ".zip" = true)
    by (vm_compute; reflexivity).
  assert (Hzip : ZipFile SampleMore.fs (str SampleMore.d_multi)
                 = Ok SampleMore.zip_multi) by (vm_compute; reflexivity).
  assert (Hdirect :
            filter (Str.contains "MTD_TL.xml") (namelist SampleMore.zip_multi)
            = ("S2A_MSIL1C.SAFE/GRANULE/" ++ Sample.gid_55HFA
               ++ "/MTD_TL.xml")%string
              :: [("S2A_MSIL1C.SAFE/GRANULE/" ++ Sample.gid_50HMH
                   ++ "/MTD_TL.xml")%string])
    by (vm_compute; reflexivity).
  assert (Hrun : get_archive_metadata Sample.date_parser SampleMore.fs
                                      SampleMore.d_multi
                 = Ok [(Some Sample.gid_55HFA, "2021-03-01T00:12:00Z");
                       (Some Sample.gid_50HMH, "2021-03-01T00:12:00Z")])
    by (vm_compute; reflexivity).
  split; [exact Hsuffix|]. split; [exact Hzip|].
  split; [vm_compute; reflexivity|]. split; [exact Hrun|].
  destruct (granules_share_first_tile_document
              string Sample.date_parser SampleMore.fs SampleMore.d_multi
              SampleMore.zip_multi _ _ _ Hsuffix Hzip Hdirect Hrun)
    as (root & sensing & value & _ & _ & _ & Hall).
  exists value. exact Hall.
Defined.

(** Two file systems with the same archive at the reference and other
    files elsewhere. *)
Lemma extractor_reads_only_the_archive_and_granule_documents_witness :
  Sample.fs (str Sample.d_55HFA) = SampleMore.fs (str Sample.d_55HFA)
  /\ Sample.fs (str SampleMore.d_multi) <> SampleMore.fs (str SampleMore.d_multi)
  /\ String.eqb (suffix Sample.d_55HFA) ".zip" = true
  /\ get_archive_metadata Sample.date_parser Sample.fs Sample.d_55HFA
     = get_archive_metadata Sample.date_parser SampleMore.fs Sample.d_55HFA.
Proof.
  assert (Hp : Sample.fs (str Sample.d_55HFA)
               = SampleMore.fs (str Sample.d_55HFA))
    by (vm_compute; reflexivity).
  assert (Hsuffix : String.eqb (suffix Sample.d_55HFA) ".zip" = true)
    by (vm_compute; reflexivity).
  split; [exact Hp|]. split; [vm_compute; discriminate|].
  split; [exact Hsuffix|].
  exact (proj1 (extractor_reads_only_the_archive_and_granule_documents
                  string Sample.date_parser Sample.fs SampleMore.fs
                  Sample.d_55HFA Hp) Hsuffix).
Defined.

(** A list of two lines, the last without newline, and an empty list. *)
Lemma file_len_counts_lines_witness :
  Calcnodes.sample_open "two.txt"
  = Calcnodes.Returns
      ("/data/a.zip" ++ String Calcnodes.newline "/data/b.zip")%string
  /\ Calcnodes.file_len Calcnodes.sample_open "two.txt"
     = Calcnodes.Returns 2%Z
  /\ Calcnodes.file_len Calcnodes.sample_open "three.txt"
     = Calcnodes.Returns 3%Z
  /\ Calcnodes.file_len Calcnodes.sample_open "empty.txt"
     = Calcnodes.Raises Calcnodes.UnboundLocalError.
Proof.
  assert (Hopen : Calcnodes.sample_open "two.txt"
                  = Calcnodes.Returns
                      ("/data/a.zip"
                       ++ String Calcnodes.newline "/data/b.zip")%string)
    by reflexivity.
  split; [exact Hopen|]. split; [|split; vm_compute; reflexivity].
  rewrite (proj1 (proj2 (file_len_counts_lines
                           Calcnodes.sample_open "two.txt" _ Hopen))).
  - vm_compute. reflexivity.
  - discriminate.
Defined.

(** The examples of the docstring: with ['20:59'] as written there,
    [ValueError]; with the seconds added, the values the docstring gives. *)
Lemma walltime_needs_three_integer_fields_witness :
  length (Str.split ":" "20:59") <> 3
  /\ Calcnodes.calc_nodes_req Calcnodes.sample_int 400%Z "20:59" 28%Z
       Calcnodes.default_hours_per_granule
     = Calcnodes.Raises Calcnodes.ValueError
  /\ Calcnodes.calc_nodes_req Calcnodes.sample_int 400%Z "20:59:00" 28%Z
       Calcnodes.default_hours_per_granule
     = Calcnodes.Returns 2%Z
  /\ Calcnodes.calc_nodes_req Calcnodes.sample_int 800%Z "20:00:00" 28%Z
       Calcnodes.default_hours_per_granule
     = Calcnodes.Returns 3%Z.
Proof.
  assert (Hlen : length (Str.split ":" "20:59") <> 3)
    by (vm_compute; discriminate).
  split; [exact Hlen|]. split; [|split; vm_compute; reflexivity].
  exact (walltime_needs_three_integer_fields
           Calcnodes.sample_int 400%Z "20:59" 28%Z
           Calcnodes.default_hours_per_granule (or_introl Hlen)).
Defined.

Lemma zero_hours_or_workers_divide_by_zero_witness :
  Str.split ":" "00:30:00" = ["00"; "30"; "00"]
  /\ Calcnodes.sample_int "00" = Some 0%Z
  /\ Calcnodes.sample_int "30" = Some 30%Z
  /\ Calcnodes.float_mul_int Calcnodes.default_hours_per_granule 400%Z
     = Calcnodes.Returns (S754_finite false 5277655813324800 (-43))
  /\ Calcnodes.calc_nodes_req Calcnodes.sample_int 400%Z "00:30:00" 28%Z
       Calcnodes.default_hours_per_granule
     = Calcnodes.Raises Calcnodes.ZeroDivisionError.
Proof.
  assert (Hsplit : Str.split ":" "00:30:00" = ["00"; "30"; "00"])
    by (vm_compute; reflexivity).
  assert (H0 : Calcnodes.sample_int "00" = Some 0%Z)
    by (vm_compute; reflexivity).
  assert (H30 : Calcnodes.sample_int "30" = Some 30%Z)
    by (vm_compute; reflexivity).
  assert (Hwork : Calcnodes.float_mul_int
                    Calcnodes.default_hours_per_granule 400%Z
                  = Calcnodes.Returns
                      (S754_finite false 5277655813324800 (-43)))
    by (vm_compute; reflexivity).
  split; [exact Hsplit|]. split; [exact H0|]. split; [exact H30|].
  split; [exact Hwork|].
  exact (zero_hours_or_workers_divide_by_zero
           Calcnodes.sample_int 400%Z "00:30:00" 28%Z
           Calcnodes.default_hours_per_granule _ "00" "30" "00" 0%Z 30%Z 0%Z
           Hsplit H0 H30 H0 Hwork (or_introl eq_refl)).
Defined.

(** * The granule documents of a reference that is not a [.zip] *)

Lemma dict_set_in_same {V} (k : pykey) (v : V) (d : dict V) :
  In (k, v) (dict_set k v d).
Proof.
  induction d as [|[k0 v0] d IH]; [left; reflexivity|].
  cbn [dict_set]. destruct (pykey_eqb k0 k) eqn:E.
  - apply pykey_eqb_eq in E. subst k0. left. reflexivity.
  - right. exact IH.
Qed.

Lemma dict_set_other {V} (k k' : pykey) (v v' : V) (d : dict V) :
  k' <> k -> In (k, v) d -> In (k, v) (dict_set k' v' d).
Proof.
  intros Hne. induction d as [|[k0 v0] d IH]; intros Hin; [contradiction|].
  cbn [dict_set]. destruct (pykey_eqb k0 k') eqn:E.
  - apply pykey_eqb_eq in E. subst k0.
    destruct Hin as [[= -> ->]|Hin]; [contradiction Hne; reflexivity|].
    right. exact Hin.
  - destruct Hin as [Hin|Hin]; [left; exact Hin|right; apply IH, Hin].
Qed.

Section GranuleDocuments.

Variable datetime : Type.
Variable date_parser : option string -> result datetime.
Variable fs : filesystem.
Variable p : Path.
Variable a : archive.
Variable pb : option string.

Local Abbreviation for_granules := (for_granules date_parser fs p a pb).
Local Abbreviation gran_id_of granule :=
  (get "granuleIdentifier" (attrib granule)).

Lemma for_granules_keeps (grn_elements : list Element) :
  forall results md,
    for_granules grn_elements results = Ok md ->
    forall k v root sensing,
      In (k, v) results ->
      granule_root fs p a pb k = Ok root ->
      first_item (findall "./*/SENSING_TIME" root) = Ok sensing ->
      date_parser (text sensing) = Ok v ->
      In (k, v) md.
Proof.
  induction grn_elements as [|granule rest IH];
    intros results md Hrun k v root sensing Hin Hroot Hsensing Hvalue.
  - cbn in Hrun. injection Hrun as <-. exact Hin.
  - cbn [for_granules] in Hrun. cbv zeta in Hrun.
    destruct (granule_root fs p a pb (gran_id_of granule))
      as [root'|e] eqn:Hroot'; [|discriminate].
    cbn [rbind] in Hrun.
    destruct (first_item (findall "./*/SENSING_TIME" root'))
      as [sensing'|e] eqn:Hsensing'; [|discriminate].
    cbn [rbind] in Hrun.
    destruct (date_parser (text sensing')) as [parsed|e] eqn:Hparsed;
      [|discriminate].
    cbn [rbind] in Hrun.
    apply (IH _ _ Hrun k v root sensing); try assumption.
    destruct (pykey_eqb (gran_id_of granule) k) eqn:E.
    + apply pykey_eqb_eq in E. rewrite E in *.
      assert (root' = root) by congruence. subst root'.
      assert (sensing' = sensing) by congruence. subst sensing'.
      assert (parsed = v) by congruence. subst parsed.
      apply dict_set_in_same.
    + apply dict_set_other; [|exact Hin].
      intros Heq. rewrite Heq in E.
      assert (pykey_eqb k k = true) by (apply pykey_eqb_eq; reflexivity).
      congruence.
Qed.

Lemma for_granules_times (grn_elements : list Element) :
  forall results md,
    for_granules grn_elements results = Ok md ->
    forall granule,
      In granule grn_elements ->
      exists root sensing v,
        granule_root fs p a pb (gran_id_of granule) = Ok root
        /\ first_item (findall "./*/SENSING_TIME" root) = Ok sensing
        /\ date_parser (text sensing) = Ok v
        /\ In (gran_id_of granule, v) md.
Proof.
  induction grn_elements as [|first rest IH];
    intros results md Hrun granule Hin; [contradiction|].
  pose proof Hrun as Hstep. cbn [for_granules] in Hstep. cbv zeta in Hstep.
  destruct (granule_root fs p a pb (gran_id_of first))
    as [root|e] eqn:Hroot; [|discriminate].
  cbn [rbind] in Hstep.
  destruct (first_item (findall "./*/SENSING_TIME" root))
    as [sensing|e] eqn:Hsensing; [|discriminate].
  cbn [rbind] in Hstep.
  destruct (date_parser (text sensing)) as [parsed|e] eqn:Hparsed;
    [|discriminate].
  cbn [rbind] in Hstep.
  destruct Hin as [<-|Hin].
  - exists root, sensing, parsed. repeat split; try assumption.
    apply (for_granules_keeps rest _ _ Hstep _ _ root sensing);
      try assumption.
    apply dict_set_in_same.
  - apply (IH _ _ Hstep granule Hin).
Qed.

End GranuleDocuments.

Section LayoutProperties.

Variable datetime : Type.
Variable date_parser : option string -> result datetime.

Local Abbreviation get_archive_metadata := (get_archive_metadata date_parser).

(** X17. For a reference whose suffix is not [.zip], a mapping the extractor
    returns holds, for every granule element whose identifier is one path
    component, the sensing time parsed from the file
    [GRANULE/<granule_id>/<transformed_id>.xml] under the parent directory
    of the reference, the transformed identifier being the identifier
    without its last seven characters and with [MTD] for [MSI]. *)
Theorem granule_times_come_from_the_layout
        (fs : filesystem) (p : Path) (a : archive) (member : string)
        (xml_root : Element) (md : dict datetime) :
  String.eqb (suffix p) ".zip" = false ->
  ZipFile fs (str p) = Ok a ->
  first_item (product_xmlfiles p a) = Ok member ->
  XML_of_member a member = Ok xml_root ->
  get_archive_metadata fs p = Ok md ->
  forall granule g,
    In granule (granule_elements xml_root) ->
    get "granuleIdentifier" (attrib granule) = Some g ->
    path_segment g = true ->
    exists root sensing v,
      ElementTree_parse fs (str (granule_layout (parent p) g)) = Ok root
      /\ first_item (findall "./*/SENSING_TIME" root) = Ok sensing
      /\ date_parser (text sensing) = Ok v
      /\ In (Some g, v) md.
Proof.
  intros Hsuffix Hzip Hmember Hxml Hrun granule g Hin Hg Hseg.
  unfold get_archive_metadata in Hrun. rewrite Hzip in Hrun.
  cbn [rbind] in Hrun. cbv zeta in Hrun. rewrite Hmember in Hrun.
  cbn [rbind] in Hrun. rewrite Hxml in Hrun. cbn [rbind] in Hrun.
  unfold metadata_of_root in Hrun. cbv zeta in Hrun.
  destruct (first_item (granule_elements xml_root)); [|discriminate].
  cbn [rbind] in Hrun.
  destruct (first_item (findall _ xml_root)) as [baseline|e];
    [|discriminate].
  cbn [rbind] in Hrun.
  destruct (for_granules_times _ date_parser fs p a (text baseline)
              (granule_elements xml_root) [] md Hrun granule Hin)
    as (root & sensing & v & Hroot & Hsensing & Hvalue & Hmd).
  rewrite Hg in Hroot, Hmd.
  rewrite (proj1 (granule_root_beside_reference
                    fs p a (text baseline) g Hsuffix Hseg)) in Hroot.
  exists root, sensing, v. repeat split; assumption.
Qed.

End LayoutProperties.

(** An archive named [S2A_UPPER.ZIP]: the sensing time of its granule is
    read from [/data/GRANULE/...], beside the archive. *)
Lemma granule_times_come_from_the_layout_witness :
  String.eqb (suffix Sample.d_upper) ".zip" = false
  /\ ZipFile Sample.fs (str Sample.d_upper) = Ok Sample.zip_product_only
  /\ path_segment Sample.gid_55HFA = true
  /\ str (granule_layout (parent Sample.d_upper) Sample.gid_55HFA)
     = ("/data/GRANULE/" ++ Sample.gid_55HFA ++ "/" ++ Sample.tid_55HFA
        ++ ".xml")%string
  /\ get_archive_metadata Sample.date_parser Sample.fs Sample.d_upper
     = Ok [(Some Sample.gid_55HFA, "2021-03-01T00:12:00Z")]
  /\ exists root sensing v,
      ElementTree_parse Sample.fs
        (str (granule_layout (parent Sample.d_upper) Sample.gid_55HFA))
      = Ok root
      /\ first_item (findall "./*/SENSING_TIME" root) = Ok sensing
      /\ Sample.date_parser (text sensing) = Ok v
      /\ In (Some Sample.gid_55HFA, v)
            [(Some Sample.gid_55HFA, "2021-03-01T00:12:00Z")].
Proof.
  assert (Hsuffix : String.eqb (suffix Sample.d_upper) ".zip" = false)
    by (vm_compute; reflexivity).
  assert (Hzip : ZipFile Sample.fs (str Sample.d_upper)
                 = Ok Sample.zip_product_only) by (vm_compute; reflexivity).
  assert (Hmember : first_item (product_xmlfiles Sample.d_upper
                                                 Sample.zip_product_only)
                    = Ok "S2A_MSIL1C.SAFE/MTD_MSIL1C.xml")
    by (vm_compute; reflexivity).
  assert (Hxml : XML_of_member Sample.zip_product_only
                               "S2A_MSIL1C.SAFE/MTD_MSIL1C.xml"
                 = Ok (Sample.product_doc "02.09"
                         [Sample.new_granule Sample.gid_55HFA]))
    by (vm_compute; reflexivity).
  assert (Hrun : get_archive_metadata Sample.date_parser Sample.fs
                                      Sample.d_upper
                 = Ok [(Some Sample.gid_55HFA, "2021-03-01T00:12:00Z")])
    by (vm_compute; reflexivity).
  assert (Hseg : path_segment Sample.gid_55HFA = true)
    by (vm_compute; reflexivity).
  split; [exact Hsuffix|]. split; [exact Hzip|]. split; [exact Hseg|].
  split; [vm_compute; reflexivity|]. split; [exact Hrun|].
  apply (granule_times_come_from_the_layout
           string Sample.date_parser Sample.fs Sample.d_upper
           Sample.zip_product_only "S2A_MSIL1C.SAFE/MTD_MSIL1C.xml"
           _ _ Hsuffix Hzip Hmember Hxml Hrun
           (Sample.new_granule Sample.gid_55HFA) Sample.gid_55HFA).
  - vm_compute. left. reflexivity.
  - reflexivity.
  - exact Hseg.
Defined.
